(** * Transcript Manager: the [generate-notes-from-source] tool handler

    A shallow embedding of [src/index.ts].  The handler is a straight-line
    piece of effectful JavaScript: it looks a course up in two tables, reads a
    file or runs a helper command, optionally writes the transcript, and
    formats an envelope.  It is embedded as a computation in a small
    trace-and-exception monad over a [Runtime] record that stands for the
    library calls the handler makes ([fs.readFile], [fs.writeFile],
    [execSync], [JSON.parse], [JSON.stringify]).

    JavaScript strings are sequences of UTF-16 code units; they are modelled
    as lists of code units so that [.length] and the regular-expression class
    [\s] mean what they mean in the source. *)

From Equations Require Import Equations.
From Stdlib Require Import List NArith Arith Bool Ascii Lia.
From Stdlib Require String.
Import ListNotations String.StringSyntax.
Open Scope string_scope.
Open Scope list_scope.

Set Implicit Arguments.

(** ** Strings *)

Module JsString.

(** A string value: its UTF-16 code units, in order. *)
Definition jsstring := list N.

(** An ASCII literal of the source, as a string value. *)
Definition lit (s : String.string) : jsstring :=
  map N_of_ascii (String.list_ascii_of_string s).

(** Code units the handler and [path] look at. *)
Definition SLASH : N := 47.
Definition DOT : N := 46.
Definition HYPHEN : N := 45.
Definition DQUOTE : N := 34.
Definition SPACE : N := 32.

(** The class [\s] of a JavaScript regular expression without the [u] flag:
    the WhiteSpace and LineTerminator code points, all of them in the BMP. *)
Definition is_space (c : N) : bool :=
  ((9 <=? c) && (c <=? 13)          (* TAB LF VT FF CR *)
   || (c =? 32)                     (* SPACE *)
   || (c =? 160)                    (* NO-BREAK SPACE *)
   || (c =? 5760)                   (* OGHAM SPACE MARK *)
   || ((8192 <=? c) && (c <=? 8202)) (* EN QUAD .. HAIR SPACE *)
   || (c =? 8232) || (c =? 8233)    (* LINE / PARAGRAPH SEPARATOR *)
   || (c =? 8239)                   (* NARROW NO-BREAK SPACE *)
   || (c =? 8287)                   (* MEDIUM MATHEMATICAL SPACE *)
   || (c =? 12288)                  (* IDEOGRAPHIC SPACE *)
   || (c =? 65279))%N.              (* ZERO WIDTH NO-BREAK SPACE *)

(** Equality of strings, as [===] decides it. *)
Fixpoint eqb (a b : jsstring) : bool :=
  match a, b with
  | [], [] => true
  | x :: a', y :: b' => (x =? y)%N && eqb a' b'
  | _, _ => false
  end.

(** A string is truthy exactly when it is not empty. *)
Definition truthy (s : jsstring) : bool :=
  match s with [] => false | _ :: _ => true end.

(** [Number.prototype.toString] on a length: its decimal digits. *)
Fixpoint digits_of_uint (d : Decimal.uint) : jsstring :=
  match d with
  | Decimal.Nil => []
  | Decimal.D0 r => 48%N :: digits_of_uint r
  | Decimal.D1 r => 49%N :: digits_of_uint r
  | Decimal.D2 r => 50%N :: digits_of_uint r
  | Decimal.D3 r => 51%N :: digits_of_uint r
  | Decimal.D4 r => 52%N :: digits_of_uint r
  | Decimal.D5 r => 53%N :: digits_of_uint r
  | Decimal.D6 r => 54%N :: digits_of_uint r
  | Decimal.D7 r => 55%N :: digits_of_uint r
  | Decimal.D8 r => 56%N :: digits_of_uint r
  | Decimal.D9 r => 57%N :: digits_of_uint r
  end.

Definition decimal (n : nat) : jsstring :=
  match Nat.to_uint n with
  | Decimal.Nil => [48%N]
  | d => digits_of_uint d
  end.

(** *** [String.prototype.replace] with the pattern [/\s+/g]

    A global replace scans the string from the left.  At each position it
    tries the pattern; [\s+] is greedy, so a match takes the whole run of
    white space that starts there.  On a match the replacement is emitted and
    the scan resumes after the match; otherwise the code unit is copied and
    the scan moves one position on. *)

(** The greedy match of [\s+] at the head of [s]: how many code units it
    takes ([0] when the pattern does not match here). *)
Fixpoint match_spaces (s : jsstring) : nat :=
  match s with
  | c :: r => if is_space c then S (match_spaces r) else 0
  | [] => 0
  end.

Equations? replace_spaces (by_ : jsstring) (s : jsstring) : jsstring
  by wf (length s) lt :=
  replace_spaces by_ [] := [];
  replace_spaces by_ (c :: r) with is_space c => {
    | true := by_ ++ replace_spaces by_ (skipn (match_spaces r) r);
    | false := c :: replace_spaces by_ r }.
Proof.
  rewrite length_skipn. simpl. lia.
Qed.

End JsString.
Export JsString.

(** ** Values

    What [JSON.parse] can return, what a lookup in a course table can return,
    and what the handler holds in [transcriptContent]. *)

#[warnings="-register-all"]
Inductive Json : Type :=
| JNull
| JBool (b : bool)
| JNum (text : jsstring)   (* a number, carried as the text ToString gives it *)
| JStr (s : jsstring)
| JArr (items : list Json)
| JObj (members : list (jsstring * Json)).  (* own properties, in order *)

(** A value that may be [undefined]: the right-hand side of
    [transcriptContent = apiResponse.data]. *)
Inductive Value : Type :=
| VUndefined
| VJson (j : Json).

(** What a thrown [Error] carries as far as the handler can tell: the handler
    only ever reads [error.message]. *)
Inductive Outcome (A : Type) : Type :=
| Returned (a : A)
| Thrown (message : jsstring).
Arguments Returned {A} a.
Arguments Thrown {A} message.

(** The own property [name] of an object built from JSON text. *)
Fixpoint own_member (members : list (jsstring * Json)) (name : jsstring) : option Json :=
  match members with
  | [] => None
  | (k, v) :: rest => if JsString.eqb k name then Some v else own_member rest name
  end.

(** The messages V8 gives to the two TypeErrors that reading a property of
    [undefined] or [null] raises. *)
Definition cannot_read (of_ name : String.string) : jsstring :=
  lit "Cannot read properties of " ++ lit of_ ++ lit " (reading '" ++ lit name ++ lit "')".

(** [apiResponse.data].  No built-in prototype has a member called [data], so
    only an own property of an object can supply it. *)
Definition get_data (apiResponse : Json) : Outcome Value :=
  match apiResponse with
  | JNull => Thrown (cannot_read "null" "data")
  | JObj members =>
      match own_member members (lit "data") with
      | Some v => Returned (VJson v)
      | None => Returned VUndefined
      end
  | _ => Returned VUndefined
  end.

(** ToString on a JSON value, as a template literal applies it.  An array is
    joined with commas, [null] elements giving the empty string; an object
    gives [[object Object]] unless an own [toString] property hides the
    inherited method, in which case the conversion throws. *)
Definition cannot_convert : jsstring := lit "Cannot convert object to primitive value".

Fixpoint to_text (j : Json) : Outcome jsstring :=
  match j with
  | JNull => Returned (lit "null")
  | JBool true => Returned (lit "true")
  | JBool false => Returned (lit "false")
  | JNum text => Returned text
  | JStr s => Returned s
  | JArr items =>
      (fix join (first : bool) (l : list Json) : Outcome jsstring :=
         match l with
         | [] => Returned []
         | x :: rest =>
             let sep := if first then [] else lit "," in
             match (match x with JNull => Returned [] | _ => to_text x end) with
             | Thrown m => Thrown m
             | Returned sx =>
                 match join false rest with
                 | Thrown m => Thrown m
                 | Returned sr => Returned (sep ++ sx ++ sr)
                 end
             end
         end) true items
  | JObj members =>
      match own_member members (lit "toString") with
      | Some _ => Thrown cannot_convert
      | None => Returned (lit "[object Object]")
      end
  end.

(** The text of [${transcriptContent.length}].  Strings and arrays have a
    numeric [length]; an object has one only as an own property; numbers and
    booleans have none, which prints as [undefined]; reading it off
    [undefined] or [null] throws. *)
Definition length_text (transcriptContent : Value) : Outcome jsstring :=
  match transcriptContent with
  | VUndefined => Thrown (cannot_read "undefined" "length")
  | VJson JNull => Thrown (cannot_read "null" "length")
  | VJson (JStr s) => Returned (decimal (length s))
  | VJson (JArr items) => Returned (decimal (length items))
  | VJson (JObj members) =>
      match own_member members (lit "length") with
      | Some v => to_text v
      | None => Returned (lit "undefined")
      end
  | VJson (JBool _) | VJson (JNum _) => Returned (lit "undefined")
  end.

(** *** Members of an object literal

    The course tables are object literals, and [TABLE[key]] is an ordinary
    property read: it finds the own properties of the literal and, behind
    them, the members of [Object.prototype]. *)

Definition OBJECT_PROTOTYPE : list jsstring :=
  [ lit "constructor"; lit "__defineGetter__"; lit "__defineSetter__";
    lit "hasOwnProperty"; lit "__lookupGetter__"; lit "__lookupSetter__";
    lit "isPrototypeOf"; lit "propertyIsEnumerable"; lit "toString";
    lit "valueOf"; lit "__proto__"; lit "toLocaleString" ].

Definition inherited (name : jsstring) : bool :=
  existsb (JsString.eqb name) OBJECT_PROTOTYPE.

(** A value read from a course table, and what is left of it after
    [|| DEFAULT]: a string, or a member of [Object.prototype] (eleven
    functions and, under [__proto__], the prototype object itself). *)
Inductive PathValue : Type :=
| PString (s : jsstring)
| PBuiltin (name : jsstring).

Fixpoint own_entry (table : list (jsstring * jsstring)) (key : jsstring) : option jsstring :=
  match table with
  | [] => None
  | (k, v) :: rest => if JsString.eqb k key then Some v else own_entry rest key
  end.

(** [table[key]]; [None] is [undefined]. *)
Definition member (table : list (jsstring * jsstring)) (key : jsstring) : option PathValue :=
  match own_entry table key with
  | Some v => Some (PString v)
  | None => if inherited key then Some (PBuiltin key) else None
  end.

Definition path_truthy (v : PathValue) : bool :=
  match v with
  | PString s => truthy s
  | PBuiltin _ => true
  end.

Definition member_truthy (v : option PathValue) : bool :=
  match v with
  | Some x => path_truthy x
  | None => false
  end.

(** [v || fallback] *)
Definition or_path (v : option PathValue) (fallback : PathValue) : PathValue :=
  match v with
  | Some x => if path_truthy x then x else fallback
  | None => fallback
  end.

(** [s || fallback] for an optional string parameter: an absent parameter and
    an empty one are both falsy. *)
Definition or_string (s : option jsstring) (fallback : jsstring) : jsstring :=
  match s with
  | Some x => if truthy x then x else fallback
  | None => fallback
  end.

(** The name a built-in function reports: [Object.prototype.constructor] is
    the function [Object]. *)
Definition builtin_name (name : jsstring) : jsstring :=
  if JsString.eqb name (lit "constructor") then lit "Object" else name.

(** ToString on a value read from a table (V8's rendering of a native
    function). *)
Definition path_text (v : PathValue) : jsstring :=
  match v with
  | PString s => s
  | PBuiltin name =>
      if JsString.eqb name (lit "__proto__") then lit "[object Object]"
      else lit "function " ++ builtin_name name ++ lit "() { [native code] }"
  end.

(** ** [path] (POSIX)

    The tables hold POSIX paths, so [path] is [path.posix]. *)

Module Path.

(** [path.isAbsolute]: the path starts with a slash. *)
Definition isAbsolute (p : jsstring) : bool :=
  match p with
  | c :: _ => (c =? SLASH)%N
  | [] => false
  end.

(** The segments of [p] between slashes. *)
Fixpoint split (p : jsstring) : list jsstring :=
  match p with
  | [] => [[]]
  | c :: r =>
      if (c =? SLASH)%N then [] :: split r
      else match split r with
           | seg :: segs => (c :: seg) :: segs
           | [] => [[c]]
           end
  end.

Definition is_dot (seg : jsstring) : bool := JsString.eqb seg [DOT].
Definition is_dotdot (seg : jsstring) : bool := JsString.eqb seg [DOT; DOT].

(** One step of [normalizeString]: [kept] holds the segments kept so far,
    last one first. *)
Definition push (allowAboveRoot : bool) (kept : list jsstring) (seg : jsstring) : list jsstring :=
  if truthy seg then
    if is_dot seg then kept
    else if is_dotdot seg then
      match kept with
      | last :: before =>
          if is_dotdot last then (if allowAboveRoot then seg :: kept else kept)
          else before
      | [] => if allowAboveRoot then [seg] else []
      end
    else seg :: kept
  else kept.

Fixpoint unsplit (segs : list jsstring) : jsstring :=
  match segs with
  | [] => []
  | [seg] => seg
  | seg :: rest => seg ++ SLASH :: unsplit rest
  end.

Definition normalizeString (p : jsstring) (allowAboveRoot : bool) : jsstring :=
  unsplit (rev (fold_left (push allowAboveRoot) (split p) [])).

(** [path.normalize] *)
Definition normalize (p : jsstring) : jsstring :=
  match p with
  | [] => [DOT]
  | _ =>
      let absolute := isAbsolute p in
      let trailingSeparator := (last p 0 =? SLASH)%N in
      let body := normalizeString p (negb absolute) in
      match body with
      | [] => if absolute then [SLASH]
              else if trailingSeparator then [DOT; SLASH] else [DOT]
      | _ =>
          let body' := if trailingSeparator then body ++ [SLASH] else body in
          if absolute then SLASH :: body' else body'
      end
  end.

(** The message of the TypeError that [validateString] raises on an argument
    that is not a string. *)
Definition not_a_string (name : jsstring) : jsstring :=
  lit "The " ++ [DQUOTE] ++ lit "path" ++ [DQUOTE]
  ++ lit " argument must be of type string. Received "
  ++ (if JsString.eqb name (lit "__proto__") then lit "an instance of Object"
      else lit "function " ++ builtin_name name).

(** The loop of [path.join]: every argument is validated in turn, the
    non-empty ones are chained with slashes. *)
Fixpoint chain (joined : option jsstring) (args : list PathValue) : Outcome (option jsstring) :=
  match args with
  | [] => Returned joined
  | PBuiltin name :: _ => Thrown (not_a_string name)
  | PString arg :: rest =>
      if truthy arg then
        match joined with
        | None => chain (Some arg) rest
        | Some j => chain (Some (j ++ SLASH :: arg)) rest
        end
      else chain joined rest
  end.

(** [path.join] *)
Definition join (args : list PathValue) : Outcome jsstring :=
  match chain None args with
  | Thrown m => Thrown m
  | Returned None => Returned [DOT]
  | Returned (Some joined) => Returned (normalize joined)
  end.

End Path.

(** ** Configuration and request *)

(** Course path mappings. *)
Definition COURSE_NOTES_PATHS : list (jsstring * jsstring) :=
  [ (lit "Approximations Algorithms", lit "/Users/lmarte/Documents/Obsidian Vault/Approx-Algo-LP");
    (lit "Math", lit "/Users/lmarte/Documents/Obsidian Vault/Math") ].

(** Where transcripts are stored. *)
Definition COURSE_TRANSCRIPT_PATHS : list (jsstring * jsstring) :=
  [ (lit "Approximations Algorithms",
     lit "/Users/lmarte/Documents/Projects/CU-Boulder/Data-Structures-Algo/Approx-Algo-LP");
    (lit "Math", lit "/Users/lmarte/Documents/Obsidian Vault/Math/transcripts") ].

Definition DEFAULT_NOTES_PATH : jsstring := lit "/Users/lmarte/Documents/Obsidian Vault".
Definition DEFAULT_TRANSCRIPT_PATH : jsstring := lit "/Users/lmarte/Documents/Transcripts".

(** [z.enum(["local-file", "youtube", "api"])] *)
Inductive SourceType : Type := LocalFile | Youtube | Api.

Definition sourceType_text (t : SourceType) : jsstring :=
  match t with
  | LocalFile => lit "local-file"
  | Youtube => lit "youtube"
  | Api => lit "api"
  end.

(** [z.enum(["GET", "POST"])] *)
Inductive ApiMethod : Type := GET | POST.

Definition apiMethod_text (m : ApiMethod) : jsstring :=
  match m with
  | GET => lit "GET"
  | POST => lit "POST"
  end.

(** The parameters of [generate-notes-from-source] once the schema has
    accepted them: optional fields may be absent, [saveTranscript] has had its
    default applied. *)
Record Params : Type := {
  courseName : jsstring;
  lectureNumber : jsstring;
  lectureTopic : jsstring;
  sourceType : SourceType;
  sourceLocation : jsstring;
  apiMethod : option ApiMethod;
  apiHeaders : option (list (jsstring * jsstring));
  apiBody : option jsstring;
  outputDirectory : option jsstring;
  outputFilename : option jsstring;
  saveTranscript : bool;
  transcriptFilename : option jsstring;
  specialFormatting : option jsstring;
  contentToEmphasize : option jsstring;
  otherInstructions : option jsstring
}.

(** The tool result.  A success envelope has no [isError] member; it is
    modelled as [isError = false].  [content] lists the texts of the
    [{type: "text", text}] items. *)
Record Envelope : Type := {
  isError : bool;
  content : list jsstring
}.

(** ** The runtime

    The library calls of the handler.  Each is made at most once per request,
    so a function of the arguments says all there is to say about it.  A
    rejected promise and a thrown exception are both [Thrown]. *)
Record Runtime : Type := {
  readFile : jsstring -> Outcome jsstring;            (* fs.readFile(path, 'utf-8') *)
  writeFile : jsstring -> Value -> Outcome unit;      (* fs.writeFile(path, data) *)
  execSync : jsstring -> Outcome jsstring;            (* execSync(command).toString() *)
  JSON_parse : jsstring -> Outcome Json;              (* JSON.parse(text) *)
  JSON_stringify_record : list (jsstring * jsstring) -> jsstring;
  JSON_stringify_string : jsstring -> jsstring
}.

(** What a request does to the outside, in the order it does it. *)
Inductive Event : Type :=
| EvConsoleError (line : jsstring)
| EvReadFile (path : jsstring)
| EvExecSync (command : jsstring)
| EvWriteFile (path : jsstring) (data : Value).

(** ** Computations: exceptions over a trace *)

Module Run.

Definition t (A : Type) : Type := list Event -> Outcome A * list Event.

Definition ret {A} (a : A) : t A := fun tr => (Returned a, tr).

Definition throw {A} (message : jsstring) : t A := fun tr => (Thrown message, tr).

Definition bind {A B} (m : t A) (k : A -> t B) : t B :=
  fun tr =>
    match m tr with
    | (Returned a, tr') => k a tr'
    | (Thrown message, tr') => (Thrown message, tr')
    end.

(** [try { m } catch (error) { handler(error.message) }] *)
Definition try_catch {A} (m : t A) (handler : jsstring -> t A) : t A :=
  fun tr =>
    match m tr with
    | (Returned a, tr') => (Returned a, tr')
    | (Thrown message, tr') => handler message tr'
    end.

Definition emit (e : Event) : t unit := fun tr => (Returned tt, tr ++ [e]).

(** A pure step that may throw. *)
Definition lift {A} (o : Outcome A) : t A := fun tr => (o, tr).

(** A library call: it is recorded, then it answers. *)
Definition call {A} (e : Event) (answer : Outcome A) : t A :=
  bind (emit e) (fun _ => lift answer).

End Run.

Declare Scope run_scope.
Delimit Scope run_scope with run.
Notation "x <- m ;; k" := (Run.bind m (fun x => k))
  (at level 100, m at next level, right associativity) : run_scope.
Notation "m ;; k" := (Run.bind m (fun _ => k))
  (at level 100, right associativity) : run_scope.

(** ** The handler *)

Section Handler.

Variable rt : Runtime.
Variable params : Params.

Local Open Scope run_scope.

Definition LF : N := 10.

(** [params.courseName.replace(/\s+/g, '-')] *)
Definition courseSlug : jsstring := replace_spaces [HYPHEN] (courseName params).

(** 1. Resolve course paths *)
Definition notesPath : PathValue :=
  or_path (member COURSE_NOTES_PATHS (courseName params)) (PString DEFAULT_NOTES_PATH).

Definition transcriptPath : PathValue :=
  or_path (member COURSE_TRANSCRIPT_PATHS (courseName params)) (PString DEFAULT_TRANSCRIPT_PATH).

Definition unknownCourseWarning : jsstring :=
  lit "Warning: Unknown course " ++ [DQUOTE] ++ courseName params ++ [DQUOTE]
  ++ lit ". Using default paths.".

Definition resolveCoursePaths : Run.t (PathValue * PathValue) :=
  (if negb (member_truthy (member COURSE_NOTES_PATHS (courseName params)))
   then Run.emit (EvConsoleError unknownCourseWarning)
   else Run.ret tt) ;;
  Run.ret (notesPath, transcriptPath).

(** The commands handed to [execSync]. *)
Definition ytCommand : jsstring :=
  lit "npx -y @anaisbetts/mcp-youtube " ++ sourceLocation params.

Definition curlCommand : jsstring :=
  let method := match apiMethod params with Some m => apiMethod_text m | None => lit "GET" end in
  let headers := match apiHeaders params with Some h => h | None => [] end in
  let body := match apiBody params with
              | Some b => if truthy b then Some b else None
              | None => None
              end in
  lit "npx @modelcontextprotocol/server-curl " ++ sourceLocation params
  ++ [SPACE] ++ method
  ++ [SPACE] ++ JSON_stringify_record rt headers
  ++ [SPACE] ++ match body with Some b => JSON_stringify_string rt b | None => [] end.

(** The default names of a saved transcript. *)
Definition ytTranscriptFilename : jsstring :=
  or_string (transcriptFilename params)
    (courseSlug ++ lit "-Lecture-" ++ lectureNumber params ++ lit "-YT.txt").

Definition apiTranscriptFilename : jsstring :=
  or_string (transcriptFilename params)
    (courseSlug ++ lit "-Lecture-" ++ lectureNumber params ++ lit "-API.txt").

Definition couldNotRead (originalTranscriptPath : jsstring) : jsstring :=
  lit "Error: Could not read file at " ++ originalTranscriptPath
  ++ lit ". Make sure the file exists and is accessible.".

(** Step 2 either leaves the handler with an envelope or goes on with the
    transcript. *)
Inductive Acquired : Type :=
| Leave (envelope : Envelope)
| GoOn (transcriptContent : Value).

(** If saveTranscript is true, save a copy. *)
Definition saveCopy (filename : jsstring) (transcriptContent : Value) : Run.t unit :=
  if saveTranscript params then
    originalTranscriptPath <- Run.lift (Path.join [transcriptPath; PString filename]) ;;
    Run.call (EvWriteFile originalTranscriptPath transcriptContent)
             (writeFile rt originalTranscriptPath transcriptContent)
  else Run.ret tt.

(** 2. Handle transcript acquisition based on source type *)
Definition acquireTranscript : Run.t Acquired :=
  match sourceType params with
  | LocalFile =>
      originalTranscriptPath <-
        Run.lift (if Path.isAbsolute (sourceLocation params)
                  then Returned (sourceLocation params)
                  else Path.join [transcriptPath; PString (sourceLocation params)]) ;;
      Run.try_catch
        (text <- Run.call (EvReadFile originalTranscriptPath)
                          (readFile rt originalTranscriptPath) ;;
         Run.ret (GoOn (VJson (JStr text))))
        (fun _ => Run.ret (Leave {| isError := true;
                                    content := [couldNotRead originalTranscriptPath] |}))
  | Youtube =>
      text <- Run.call (EvExecSync ytCommand) (execSync rt ytCommand) ;;
      let transcriptContent := VJson (JStr text) in
      saveCopy ytTranscriptFilename transcriptContent ;;
      Run.ret (GoOn transcriptContent)
  | Api =>
      stdout <- Run.call (EvExecSync curlCommand) (execSync rt curlCommand) ;;
      apiResponse <- Run.lift (JSON_parse rt stdout) ;;
      transcriptContent <- Run.lift (get_data apiResponse) ;;
      saveCopy apiTranscriptFilename transcriptContent ;;
      Run.ret (GoOn transcriptContent)
  end.

(** 5. The note-taker service: its command line and its arguments. *)
Definition noteCommand : jsstring :=
  lit "node /Users/lmarte/Documents/Projects/mcp-servers/note-taker/build/index.js".

Record PromptArgs : Type := {
  pa_courseName : jsstring;
  pa_lectureNumber : jsstring;
  pa_lectureTopic : jsstring;
  pa_transcriptFilePath : PathValue;
  pa_outputDirectory : option jsstring;
  pa_outputFilename : jsstring;
  pa_specialFormatting : jsstring;
  pa_contentToEmphasize : jsstring;
  pa_otherInstructions : jsstring
}.

(** 4. Generate output filename if not provided (the local [outputFilename];
    the bare name is the parameter's) *)
Definition theOutputFilename : jsstring :=
  or_string (outputFilename params) (courseSlug ++ lit "-Lecture-" ++ lectureNumber params).

Definition promptArgs : PromptArgs :=
  {| pa_courseName := courseName params;
     pa_lectureNumber := lectureNumber params;
     pa_lectureTopic := lectureTopic params;
     pa_transcriptFilePath := transcriptPath;
     pa_outputDirectory := outputDirectory params;
     pa_outputFilename := theOutputFilename;
     pa_specialFormatting := or_string (specialFormatting params) [];
     pa_contentToEmphasize := or_string (contentToEmphasize params) [];
     pa_otherInstructions := or_string (otherInstructions params) [] |}.

(** 3. Determine output directory (course path by default) (the local
    [outputDirectory]) *)
Definition theOutputDirectory : PathValue :=
  match outputDirectory params with
  | Some d => if truthy d then PString d else notesPath
  | None => notesPath
  end.

(** [transcriptPath || params.sourceLocation] in the message. *)
Definition sourceShown : jsstring :=
  if path_truthy transcriptPath then path_text transcriptPath else sourceLocation params.

Definition successText (fullOutputPath lengthText : jsstring) : jsstring :=
  lit "Notes successfully generated from " ++ sourceType_text (sourceType params)
  ++ lit " source!" ++ [LF; LF]
  ++ lit "Course: " ++ courseName params ++ [LF]
  ++ lit "Source: " ++ sourceShown ++ [LF]
  ++ lit "Notes saved to: " ++ fullOutputPath ++ [LF; LF]
  ++ lit "Transcript length: " ++ lengthText ++ lit " characters".

(** Steps 3 to 5 and the success envelope.  [noteCommand] and [promptArgs]
    are bound and then left alone: no call follows them in the source. *)
Definition finish (transcriptContent : Value) : Run.t Envelope :=
  let _noteCommand := noteCommand in
  let _promptArgs := promptArgs in
  fullOutputPath <-
    Run.lift (Path.join [theOutputDirectory; PString (theOutputFilename ++ lit ".md")]) ;;
  lengthText <- Run.lift (length_text transcriptContent) ;;
  Run.ret {| isError := false; content := [successText fullOutputPath lengthText] |}.

Definition errorGeneratingNotes (errorMessage : jsstring) : jsstring :=
  lit "Error generating notes: " ++ errorMessage.

(** The body of the tool, inside its [try]/[catch]. *)
Definition generateNotesFromSource : Run.t Envelope :=
  Run.try_catch
    (resolveCoursePaths ;;
     acquired <- acquireTranscript ;;
     match acquired with
     | Leave envelope => Run.ret envelope
     | GoOn transcriptContent => finish transcriptContent
     end)
    (fun errorMessage =>
       Run.ret {| isError := true; content := [errorGeneratingNotes errorMessage] |}).

End Handler.

(** A request served from an empty trace. *)
Definition serve (rt : Runtime) (params : Params) : Outcome Envelope * list Event :=
  generateNotesFromSource rt params [].

Definition response (rt : Runtime) (params : Params) : Outcome Envelope := fst (serve rt params).
Definition trace (rt : Runtime) (params : Params) : list Event := snd (serve rt params).

(** ** Observations on a served request *)

(** The transcript writes of a trace: path and data of each [fs.writeFile]. *)
Fixpoint writes (tr : list Event) : list (jsstring * Value) :=
  match tr with
  | [] => []
  | EvWriteFile path data :: rest => (path, data) :: writes rest
  | _ :: rest => writes rest
  end.

(** The commands a trace ran as subprocesses. *)
Fixpoint spawned (tr : list Event) : list jsstring :=
  match tr with
  | [] => []
  | EvExecSync command :: rest => command :: spawned rest
  | _ :: rest => spawned rest
  end.

(** The diagnostics a trace printed. *)
Fixpoint warnings (tr : list Event) : list jsstring :=
  match tr with
  | [] => []
  | EvConsoleError line :: rest => line :: warnings rest
  | _ :: rest => warnings rest
  end.

(** The request ended with a success envelope. *)
Definition succeeded (o : Outcome Envelope) : bool :=
  match o with
  | Returned envelope => negb (isError envelope)
  | Thrown _ => false
  end.

(** The request ended with an error envelope. *)
Definition failed (o : Outcome Envelope) : bool :=
  match o with
  | Returned envelope => isError envelope
  | Thrown _ => false
  end.

(** ** Step 2 of the handler, by itself *)

(** [originalTranscriptPath] of a local-file request (lines 102-104):
    [sourceLocation] when it is absolute, otherwise [sourceLocation] joined to
    the resolved transcript path; the join throws when that path is no
    string. *)
Definition target_file (params : Params) : Outcome jsstring :=
  if Path.isAbsolute (sourceLocation params)
  then Returned (sourceLocation params)
  else Path.join [transcriptPath params; PString (sourceLocation params)].

(** What step 2 leaves in [transcriptContent] before any copy is saved
    (lines 107, 123, 140-141), or the message of the exception that ends the
    step.  It is read off the code, not off the specification: for an
    http-api request whose parsed output has no [data] member it is
    [undefined], as [transcriptContent = apiResponse.data] makes it, and not a
    failure. *)
Definition acquired (rt : Runtime) (params : Params) : Outcome Value :=
  match sourceType params with
  | LocalFile =>
      match target_file params with
      | Thrown m => Thrown m
      | Returned path =>
          match readFile rt path with
          | Returned text => Returned (VJson (JStr text))
          | Thrown m => Thrown m
          end
      end
  | Youtube =>
      match execSync rt (ytCommand params) with
      | Returned text => Returned (VJson (JStr text))
      | Thrown m => Thrown m
      end
  | Api =>
      match execSync rt (curlCommand rt params) with
      | Thrown m => Thrown m
      | Returned stdout =>
          match JSON_parse rt stdout with
          | Thrown m => Thrown m
          | Returned apiResponse => get_data apiResponse
          end
      end
  end.

(** ** The specification's vocabulary *)

(** A non-empty string. *)
Definition nonempty_text (v : Value) : bool :=
  match v with
  | VJson (JStr s) => truthy s
  | _ => false
  end.

(** A string, empty or not. *)
Definition is_text (v : Value) : bool :=
  match v with
  | VJson (JStr _) => true
  | _ => false
  end.

(** The parsed output of the HTTP-fetch collaborator has no [data] field. *)
Definition lacks_data (apiResponse : Json) : bool :=
  match apiResponse with
  | JObj members =>
      match own_member members (lit "data") with Some _ => false | None => true end
  | _ => true
  end.

(** Every white-space run replaced by one hyphen, in the specification's
    words: a white-space code unit gives a hyphen when it opens a run and
    nothing when it continues one; any other code unit is kept. *)
Fixpoint hyphenate_from (in_run : bool) (s : jsstring) : jsstring :=
  match s with
  | [] => []
  | c :: r =>
      if is_space c
      then (if in_run then hyphenate_from true r else HYPHEN :: hyphenate_from true r)
      else c :: hyphenate_from false r
  end.

Definition hyphenate (s : jsstring) : jsstring := hyphenate_from false s.

(** The derived-filename law: hyphenated course name, [-Lecture-], lecture
    number, source-type suffix. *)
Definition derived_filename (course lecture suffix : jsstring) : jsstring :=
  hyphenate course ++ lit "-Lecture-" ++ lecture ++ suffix.


(** The filename with the empty string counted as absent. *)
Definition nonempty_or_derived (params : Params) (suffix : jsstring) : jsstring :=
  or_string (transcriptFilename params)
            (derived_filename (courseName params) (lectureNumber params) suffix).

(** A course name with an entry in the course mapping tables. *)
Definition mapped (course : jsstring) : bool :=
  match own_entry COURSE_NOTES_PATHS course, own_entry COURSE_TRANSCRIPT_PATHS course with
  | None, None => false
  | _, _ => true
  end.

(** The name under which a request saves its transcript. *)
Definition savedFilename (params : Params) : jsstring :=
  match sourceType params with
  | Youtube => ytTranscriptFilename params
  | _ => apiTranscriptFilename params
  end.

(** The copy of an http-api transcript: the collaborator printed an object
    whose [data] field is [data], and the one write of the request put [data]
    at [filename] under the resolved transcript directory. *)
Definition api_copy_saved (rt : Runtime) (params : Params) (filename : jsstring) : Prop :=
  exists stdout members data path,
    execSync rt (curlCommand rt params) = Returned stdout
    /\ JSON_parse rt stdout = Returned (JObj members)
    /\ own_member members (lit "data") = Some data
    /\ Path.join [transcriptPath params; PString filename] = Returned path
    /\ writes (trace rt params) = [(path, VJson data)]
    /\ writeFile rt path (VJson data) = Returned tt.

(** The Artifact Writer is invoked exactly when the save flag is set and the
    source is a video or an endpoint. *)
Definition writer_exactly_when_saving (rt : Runtime) (params : Params) : Prop :=
  writes (trace rt params) <> []
  <-> saveTranscript params = true
      /\ (sourceType params = Youtube \/ sourceType params = Api).

(** [s] starts with [prefix]. *)
Fixpoint starts_with (prefix s : jsstring) : bool :=
  match prefix, s with
  | [], _ => true
  | a :: prefix', b :: s' => (a =? b)%N && starts_with prefix' s'
  | _ :: _, [] => false
  end.

(** The read of [path] is rejected: the file is missing or unreadable. *)
Definition unreadable (rt : Runtime) (path : jsstring) : bool :=
  match readFile rt path with
  | Thrown _ => true
  | Returned _ => false
  end.

(** The three ways the HTTP-fetch collaborator lets a request down: a non-zero
    exit, output that is not JSON, output without a [data] field. *)
Inductive FetchFailure (rt : Runtime) (params : Params) : Prop :=
| NonZeroExit (m : jsstring) :
    execSync rt (curlCommand rt params) = Thrown m -> FetchFailure rt params
| MalformedOutput (stdout m : jsstring) :
    execSync rt (curlCommand rt params) = Returned stdout ->
    JSON_parse rt stdout = Thrown m -> FetchFailure rt params
| MissingData (stdout : jsstring) (apiResponse : Json) :
    execSync rt (curlCommand rt params) = Returned stdout ->
    JSON_parse rt stdout = Returned apiResponse ->
    lacks_data apiResponse = true -> FetchFailure rt params.

(** ** Concrete runtimes and requests

    A runtime built from three finite tables: the readable files, the output
    of the commands that exit with status zero, and the JSON texts with the
    value [JSON.parse] gives each.  Everything outside the tables fails the
    way Node reports it. *)

Module Scenario.

(** [JSON.stringify] on a string: quotes, with the escapes of
    [QuoteJSONString]. *)
Definition hex_digit (n : N) : N := (if n <? 10 then 48 + n else 87 + n)%N.

Definition u_escape (c : N) : jsstring :=
  [92; 117]%N ++ map hex_digit [(c / 4096) mod 16; (c / 256) mod 16; (c / 16) mod 16; c mod 16]%N.

Definition is_high (c : N) : bool := ((55296 <=? c) && (c <=? 56319))%N.
Definition is_low (c : N) : bool := ((56320 <=? c) && (c <=? 57343))%N.

Definition escape_unit (c : N) : jsstring :=
  (if c =? 34 then [92; 34]
   else if c =? 92 then [92; 92]
   else if c =? 8 then [92; 98]
   else if c =? 12 then [92; 102]
   else if c =? 10 then [92; 110]
   else if c =? 13 then [92; 114]
   else if c =? 9 then [92; 116]
   else if c <? 32 then u_escape c
   else if is_low c then u_escape c
   else [c])%N.

Fixpoint escape_units (s : jsstring) : jsstring :=
  match s with
  | [] => []
  | c :: r =>
      if is_high c then
        match r with
        | d :: r' => if is_low d then c :: d :: escape_units r'
                     else u_escape c ++ escape_units r
        | [] => u_escape c
        end
      else escape_unit c ++ escape_units r
  end.

Definition quote (s : jsstring) : jsstring := [DQUOTE] ++ escape_units s ++ [DQUOTE].

(** [JSON.stringify] on an object whose values are strings, its properties
    taken in the order given. *)
Fixpoint stringify_members (first : bool) (members : list (jsstring * jsstring)) : jsstring :=
  match members with
  | [] => []
  | (k, v) :: rest =>
      (if first then [] else [44%N]) ++ quote k ++ [58%N] ++ quote v
      ++ stringify_members false rest
  end.

Definition stringify_record (members : list (jsstring * jsstring)) : jsstring :=
  [123%N] ++ stringify_members true members ++ [125%N].

Definition ENOENT (path : jsstring) : jsstring :=
  lit "ENOENT: no such file or directory, open '" ++ path ++ lit "'".

Definition commandFailed (command : jsstring) : jsstring :=
  lit "Command failed: " ++ command.

Definition notJson : jsstring := lit "Unexpected end of JSON input".

Definition received (data : Value) : jsstring :=
  match data with
  | VUndefined => lit "undefined"
  | VJson JNull => lit "null"
  | VJson (JBool _) => lit "type boolean"
  | VJson (JNum _) => lit "type number"
  | VJson (JArr _) => lit "an instance of Array"
  | VJson (JObj _) => lit "an instance of Object"
  | VJson (JStr _) => lit "type string"
  end.

Definition invalidData (data : Value) : jsstring :=
  lit "The " ++ [DQUOTE] ++ lit "data" ++ [DQUOTE]
  ++ lit " argument must be of type string or an instance of Buffer, TypedArray, or DataView. Received "
  ++ received data.

Fixpoint lookup {A : Type} (table : list (jsstring * A)) (key : jsstring) : option A :=
  match table with
  | [] => None
  | (k, v) :: rest => if JsString.eqb k key then Some v else lookup rest key
  end.

(** Writing succeeds with a string and is refused with any other value of the
    scenarios below ([undefined] among them). *)
Definition runtime (files : list (jsstring * jsstring))
                   (outputs : list (jsstring * jsstring))
                   (documents : list (jsstring * Json)) : Runtime :=
  {| readFile path :=
       match lookup files path with
       | Some text => Returned text
       | None => Thrown (ENOENT path)
       end;
     writeFile path data :=
       match data with
       | VJson (JStr _) => Returned tt
       | _ => Thrown (invalidData data)
       end;
     execSync command :=
       match lookup outputs command with
       | Some stdout => Returned stdout
       | None => Thrown (commandFailed command)
       end;
     JSON_parse text :=
       match lookup documents text with
       | Some j => Returned j
       | None => Thrown notJson
       end;
     JSON_stringify_record := stringify_record;
     JSON_stringify_string := quote |}.

(** A request with the optional members it does not list left out. *)
Definition request (course lecture : jsstring) (source : SourceType) (location : jsstring)
                   (save : bool) (filename directory : option jsstring) : Params :=
  {| courseName := course;
     lectureNumber := lecture;
     lectureTopic := lit "Limits";
     sourceType := source;
     sourceLocation := location;
     apiMethod := None;
     apiHeaders := None;
     apiBody := None;
     outputDirectory := directory;
     outputFilename := None;
     saveTranscript := save;
     transcriptFilename := filename;
     specialFormatting := None;
     contentToEmphasize := None;
     otherInstructions := None |}.

Definition mathTranscripts : jsstring := lit "/Users/lmarte/Documents/Obsidian Vault/Math/transcripts".

(** A local file that exists. *)
Definition localHello : Params :=
  request (lit "Math") (lit "1") LocalFile (lit "lec1.txt") true None None.
Definition diskHello : Runtime :=
  runtime [(mathTranscripts ++ lit "/lec1.txt", lit "hello")] [] [].

(** A local file that exists and is empty. *)
Definition diskEmpty : Runtime :=
  runtime [(mathTranscripts ++ lit "/lec1.txt", [])] [] [].

(** No file at all. *)
Definition diskBare : Runtime := runtime [] [] [].

(** A video whose transcript helper prints a transcript. *)
Definition videoUrl : jsstring := lit "https://youtu.be/abc".
Definition videoMath : Params :=
  request (lit "Math") (lit "3") Youtube videoUrl true None None.
Definition helperPrints : Runtime :=
  runtime [] [(lit "npx -y @anaisbetts/mcp-youtube https://youtu.be/abc", lit "so today")] [].

(** An endpoint whose fetch helper prints an object with a [data] field. *)
Definition endpoint : jsstring := lit "https://example.com/t".
Definition curlLine : jsstring :=
  lit "npx @modelcontextprotocol/server-curl https://example.com/t GET {} ".
Definition withData : jsstring := stringify_record [(lit "data", lit "hello")].
Definition fetchPrints : Runtime :=
  runtime [] [(curlLine, withData)] [(withData, JObj [(lit "data", JStr (lit "hello"))])].

Definition apiDerived : Params :=
  request (lit "Approximations Algorithms") (lit "2") Api endpoint true None None.
Definition apiNamed : Params :=
  request (lit "Math") (lit "2") Api endpoint true (Some (lit "t.txt")) None.

(** An endpoint whose fetch helper prints an object without a [data] field. *)
Definition fetchPrintsEmptyObject : Runtime :=
  runtime [] [(curlLine, lit "{}")] [(lit "{}", JObj [])].

(** A course named like a member of [Object.prototype]. *)
Definition localConstructor : Params :=
  request (lit "constructor") (lit "1") LocalFile (lit "/tmp/lec1.txt") true None
          (Some (lit "/tmp/notes")).
Definition diskTmp : Runtime := runtime [(lit "/tmp/lec1.txt", lit "hello")] [] [].

End Scenario.
Import Scenario.

(** ** More observations *)

(** The files a trace read. *)
Fixpoint reads (tr : list Event) : list jsstring :=
  match tr with
  | [] => []
  | EvReadFile path :: rest => path :: reads rest
  | _ :: rest => reads rest
  end.

(** No white-space code unit. *)
Definition spaceless (s : jsstring) : bool := forallb (fun c => negb (is_space c)) s.

(** A runtime whose disk takes no write. *)
Definition readOnlyDisk (rt : Runtime) : Runtime :=
  {| readFile := readFile rt;
     writeFile path _ := Thrown (lit "EACCES: permission denied, open '" ++ path ++ lit "'");
     execSync := execSync rt;
     JSON_parse := JSON_parse rt;
     JSON_stringify_record := JSON_stringify_record rt;
     JSON_stringify_string := JSON_stringify_string rt |}.

(** ** The [list-courses] tool *)

(** [Object.keys] of a course table: the keys of the literal, in the order
    written (the keys of the tables are distinct and none is an array
    index). *)
Definition Object_keys (table : list (jsstring * jsstring)) : list jsstring := map fst table.

(** ToString on a table read; a miss prints [undefined]. *)
Definition member_text (v : option PathValue) : jsstring :=
  match v with
  | Some x => path_text x
  | None => lit "undefined"
  end.

(** [Array.prototype.join] on strings. *)
Fixpoint join_with (separator : jsstring) (items : list jsstring) : jsstring :=
  match items with
  | [] => []
  | [x] => x
  | x :: rest => x ++ separator ++ join_with separator rest
  end.

(** The text of one course: the callback of the [map]. *)
Definition courseEntry (course : jsstring) : jsstring :=
  let notesPath := member COURSE_NOTES_PATHS course in
  let transcriptPath := member COURSE_TRANSCRIPT_PATHS course in
  course ++ lit ":" ++ [LF]
  ++ lit "  - Notes: " ++ member_text notesPath ++ [LF]
  ++ lit "  - Transcripts: " ++ member_text transcriptPath.

Definition courseList : jsstring :=
  join_with [LF; LF] (map courseEntry (Object_keys COURSE_NOTES_PATHS)).

(** The tool: no parameter, no effect, one text. *)
Definition listCourses : Envelope :=
  {| isError := false;
     content := [lit "Available courses and their paths:" ++ [LF; LF] ++ courseList] |}.

(** ** The server template: [makeApiRequest]

    The second source file is the template the server grew from.  Its one
    function with a body of its own builds the options of a [fetch] call from
    default headers and the caller's options, and turns every failure into
    [null]. *)

Module Template.

Definition USER_AGENT : jsstring := lit "mcp-server/1.0".

(** An object, as the list of its own properties.  A property may hold
    [undefined]. *)
Definition Obj (V : Type) : Type := list (jsstring * V).

(** [o[key]] on own properties; [None] when there is no such property. *)
Fixpoint get {V : Type} (o : Obj V) (key : jsstring) : option V :=
  match o with
  | [] => None
  | (k, v) :: rest => if JsString.eqb k key then Some v else get rest key
  end.

(** Defining [key] on [o]: an existing property keeps its place and takes the
    new value, a new one goes last. *)
Fixpoint set {V : Type} (o : Obj V) (key : jsstring) (v : V) : Obj V :=
  match o with
  | [] => [(key, v)]
  | (k, w) :: rest =>
      if JsString.eqb k key then (k, v) :: rest else (k, w) :: set rest key v
  end.

(** [{ ...target, ...source }]: the properties of [source] are defined on a
    copy of [target], one after the other. *)
Definition assign {V : Type} (target source : Obj V) : Obj V :=
  fold_left (fun o kv => set o (fst kv) (snd kv)) source target.

(** Array indices as property names. *)
Definition indexed {V : Type} (items : list V) : Obj V :=
  combine (map decimal (seq 0 (length items))) items.

(** The properties a spread copies out of a value: those of an object, the
    elements of an array, the code units of a string, and nothing for
    [undefined], [null], numbers and booleans. *)
Definition spread_of (v : Value) : Obj Json :=
  match v with
  | VJson (JObj members) => members
  | VJson (JArr items) => indexed items
  | VJson (JStr s) => indexed (map (fun c => JStr [c]) s)
  | _ => []
  end.

(** [options.headers]; a missing property reads as [undefined]. *)
Definition headers_of (options : Obj Value) : Value :=
  match get options (lit "headers") with
  | Some v => v
  | None => VUndefined
  end.

Definition defaultHeaders : Obj Json :=
  [ (lit "User-Agent", JStr USER_AGENT);
    (lit "Content-Type", JStr (lit "application/json")) ].

(** [{ headers: { ...defaultHeaders, ...options.headers }, ...(options || {}) }] *)
Definition requestOptions (options : Obj Value) : Obj Value :=
  let headers := assign defaultHeaders (spread_of (headers_of options)) in
  assign [(lit "headers", VJson (JObj headers))] options.

(** What [fetch] resolves with, as far as the function looks at it. *)
Record Response : Type := {
  ok : bool;
  status : nat;
  json : Outcome Json        (* response.json() *)
}.

(** The network: what [fetch(url, requestOptions)] settles with. *)
Definition Net : Type := jsstring -> Obj Value -> Outcome Response.

Inductive Event : Type :=
| EvFetch (url : jsstring) (requestOptions : Obj Value)
| EvConsoleError (label message : jsstring).

(** The body of the [try]. *)
Definition attempt (fetch : Net) (url : jsstring) (options : Obj Value) : Outcome Json :=
  match fetch url (requestOptions options) with
  | Thrown m => Thrown m
  | Returned response =>
      if negb (ok response)
      then Thrown (lit "HTTP error! status: " ++ decimal (status response))
      else json response
  end.

(** [makeApiRequest(url, options)]: the parsed body, or [null]. *)
Definition makeApiRequest (fetch : Net) (url : jsstring) (options : Obj Value)
  : Json * list Event :=
  match attempt fetch url options with
  | Returned body => (body, [EvFetch url (requestOptions options)])
  | Thrown m =>
      (JNull, [EvFetch url (requestOptions options);
               EvConsoleError (lit "Error making API request:") m])
  end.

(** The errors a trace logged. *)
Fixpoint logged (tr : list Event) : list jsstring :=
  match tr with
  | [] => []
  | EvConsoleError _ m :: rest => m :: logged rest
  | _ :: rest => logged rest
  end.

(** A server that answers every request with status 200 and the body [null],
    and a caller that sets one header. *)
Definition answersNull : Net :=
  fun _ _ => Returned {| ok := true; status := 200; json := Returned JNull |}.

Definition answers404 : Net :=
  fun _ _ => Returned {| ok := false; status := 404; json := Returned (JObj []) |}.

Definition withAuthorization : Obj Value :=
  [ (lit "method", VJson (JStr (lit "GET")));
    (lit "headers", VJson (JObj [(lit "Authorization", JStr (lit "Bearer t"))])) ].

End Template.

(** ** The specification's Source Acquirer and Artifact Writer *)

(** The message of the failure the specification (4.2) asks for when the
    output of the HTTP-fetch collaborator has no [data] field.  The handler
    has no such message of its own. *)
Definition MISSING_DATA : jsstring := lit "missing data field".

(** The Source Acquirer in the specification's words (4.2): the read, the
    subprocess and the parse of step 2, and for http-api a failure when the
    parsed output has no [data] field, where the handler goes on with
    [undefined]. *)
Definition sourceAcquirer (rt : Runtime) (params : Params) : Outcome Value :=
  match acquired rt params with
  | Returned VUndefined => Thrown MISSING_DATA
  | other => other
  end.

(** The transcript invariant as the specification words it: a request that
    reaches the Artifact Writer or succeeds has acquired a non-empty string;
    otherwise, acquisition having failed, the request fails before the
    Artifact Writer step. *)
Definition transcript_invariant (rt : Runtime) (params : Params) : Prop :=
  (writes (trace rt params) <> [] \/ succeeded (response rt params) = true ->
   exists v, sourceAcquirer rt params = Returned v /\ nonempty_text v = true)
  /\ (forall m, sourceAcquirer rt params = Thrown m ->
        failed (response rt params) = true /\ writes (trace rt params) = []).







(** *** More runtimes and requests *)




(** A course named like a member of [Object.prototype], and a transcript
    named relative to its directory. *)
Definition relativeConstructor : Params :=
  request (lit "constructor") (lit "1") LocalFile (lit "lec1.txt") true None None.

(** ** A request in closed form

    What a served request amounts to once the monad is unfolded: the warning,
    if any, then the acquisition of its source type, then the conclusion. *)

Definition errorEnvelope (errorMessage : jsstring) : Envelope :=
  {| isError := true; content := [errorGeneratingNotes errorMessage] |}.

(** The diagnostic of step 1. *)
Definition warned (params : Params) : list Event :=
  if negb (member_truthy (member COURSE_NOTES_PATHS (courseName params)))
  then [EvConsoleError (unknownCourseWarning params)]
  else [].

(** Steps 3 to 5 on a transcript, with the outer [catch] applied. *)
Definition concluded (params : Params) (transcriptContent : Value) : Envelope :=
  match Path.join [theOutputDirectory params;
                   PString (theOutputFilename params ++ lit ".md")] with
  | Thrown m => errorEnvelope m
  | Returned fullOutputPath =>
      match length_text transcriptContent with
      | Thrown m => errorEnvelope m
      | Returned lengthText =>
          {| isError := false; content := [successText params fullOutputPath lengthText] |}
      end
  end.

(** Saving a copy under [filename], then concluding. *)
Definition savedThenConcluded (rt : Runtime) (params : Params) (filename : jsstring)
           (transcriptContent : Value) : Envelope * list Event :=
  if saveTranscript params then
    match Path.join [transcriptPath params; PString filename] with
    | Thrown m => (errorEnvelope m, [])
    | Returned path =>
        (match writeFile rt path transcriptContent with
         | Thrown m => errorEnvelope m
         | Returned _ => concluded params transcriptContent
         end,
         [EvWriteFile path transcriptContent])
    end
  else (concluded params transcriptContent, []).

Definition closed_form (rt : Runtime) (params : Params) : Envelope * list Event :=
  match sourceType params with
  | LocalFile =>
      match target_file params with
      | Thrown m => (errorEnvelope m, warned params)
      | Returned path =>
          (match readFile rt path with
           | Thrown _ => {| isError := true; content := [couldNotRead path] |}
           | Returned text => concluded params (VJson (JStr text))
           end,
           warned params ++ [EvReadFile path])
      end
  | Youtube =>
      match execSync rt (ytCommand params) with
      | Thrown m => (errorEnvelope m, warned params ++ [EvExecSync (ytCommand params)])
      | Returned text =>
          let (envelope, tr) :=
            savedThenConcluded rt params (ytTranscriptFilename params) (VJson (JStr text)) in
          (envelope, warned params ++ EvExecSync (ytCommand params) :: tr)
      end
  | Api =>
      let ran := warned params ++ [EvExecSync (curlCommand rt params)] in
      match execSync rt (curlCommand rt params) with
      | Thrown m => (errorEnvelope m, ran)
      | Returned stdout =>
          match JSON_parse rt stdout with
          | Thrown m => (errorEnvelope m, ran)
          | Returned apiResponse =>
              match get_data apiResponse with
              | Thrown m => (errorEnvelope m, ran)
              | Returned transcriptContent =>
                  let (envelope, tr) :=
                    savedThenConcluded rt params (apiTranscriptFilename params)
                                       transcriptContent in
                  (envelope, ran ++ tr)
              end
          end
      end
  end.

(** * Properties *)

Arguments lit : simpl never.
Arguments Path.join : simpl never.
Arguments length_text : simpl never.
Arguments get_data : simpl never.
Arguments successText : simpl never.
Arguments couldNotRead : simpl never.
Arguments errorGeneratingNotes : simpl never.
Arguments unknownCourseWarning : simpl never.
Arguments ytCommand : simpl never.
Arguments curlCommand : simpl never.
Arguments member : simpl never.

Ltac unfold_run :=
  unfold Run.try_catch, Run.bind, Run.call, Run.emit, Run.lift, Run.ret, Run.throw.

Ltac unfold_handler :=
  unfold serve, generateNotesFromSource, resolveCoursePaths, acquireTranscript,
         saveCopy, finish;
  unfold_run.

(** The handler and its closed form agree, on the envelope and on the trace:
    in particular the handler always returns an envelope. *)
Lemma serve_closed_form (rt : Runtime) (params : Params) :
  serve rt params = (Returned (fst (closed_form rt params)), snd (closed_form rt params)).
Proof.
  unfold closed_form, savedThenConcluded, concluded, target_file, warned, errorEnvelope.
  unfold_handler.
  destruct (member_truthy (member COURSE_NOTES_PATHS (courseName params))); simpl;
    destruct (sourceType params); simpl.
  all: repeat
    match goal with
    | |- context [if ?b then _ else _] => destruct b; simpl
    | |- context [match Path.join ?a with _ => _ end] => destruct (Path.join a); simpl
    | |- context [match readFile ?r ?a with _ => _ end] => destruct (readFile r a); simpl
    | |- context [match execSync ?r ?a with _ => _ end] => destruct (execSync r a); simpl
    | |- context [match JSON_parse ?r ?a with _ => _ end] => destruct (JSON_parse r a); simpl
    | |- context [match get_data ?a with _ => _ end] => destruct (get_data a); simpl
    | |- context [match writeFile ?r ?a ?b with _ => _ end] => destruct (writeFile r a b); simpl
    | |- context [match length_text ?a with _ => _ end] => destruct (length_text a); simpl
    end.
  all: reflexivity.
Qed.

Lemma response_closed_form (rt : Runtime) (params : Params) :
  response rt params = Returned (fst (closed_form rt params)).
Proof. unfold response. rewrite serve_closed_form. reflexivity. Qed.

Lemma trace_closed_form (rt : Runtime) (params : Params) :
  trace rt params = snd (closed_form rt params).
Proof. unfold trace. rewrite serve_closed_form. reflexivity. Qed.

(** ** Strings *)

(** [JsString.eqb] decides equality of strings. *)
Lemma eqb_eq (a b : jsstring) : JsString.eqb a b = true <-> a = b.
Proof.
  revert b. induction a as [|x a IH]; intros [|y b]; simpl; split;
    try discriminate; try reflexivity.
  - intros H. apply andb_true_iff in H. destruct H as [Hx Hab].
    apply N.eqb_eq in Hx. apply IH in Hab. congruence.
  - intros H. inversion H. subst. rewrite N.eqb_refl. simpl. apply IH. reflexivity.
Qed.

(** A table read finds an own entry before anything inherited, and finds
    nothing for a name that is neither. *)
Lemma member_own (table : list (jsstring * jsstring)) (key v : jsstring) :
  own_entry table key = Some v -> member table key = Some (PString v).
Proof. unfold member. intros ->. reflexivity. Qed.

Lemma member_none (table : list (jsstring * jsstring)) (key : jsstring) :
  member table key = None <-> own_entry table key = None /\ inherited key = false.
Proof.
  unfold member. destruct (own_entry table key); [split; [discriminate|intros [? _]; discriminate]|].
  destruct (inherited key); split; try discriminate; auto.
  intros [_ ?]. discriminate.
Qed.

(** ** White space *)

Lemma match_spaces_le (s : jsstring) : match_spaces s <= length s.
Proof.
  induction s as [|c r IH]; simpl; [lia|].
  destruct (is_space c); simpl; lia.
Qed.

(** Inside a run, the rest of the run gives nothing. *)
Lemma hyphenate_in_run (s : jsstring) :
  hyphenate_from true s = hyphenate_from false (skipn (match_spaces s) s).
Proof.
  induction s as [|c r IH]; simpl; [reflexivity|].
  destruct (is_space c) eqn:E; simpl.
  - exact IH.
  - rewrite E. reflexivity.
Qed.

(** The scan of [replace(/\s+/g, '-')] computes the hyphenation of the
    specification. *)
Lemma replace_spaces_hyphenate (s : jsstring) :
  replace_spaces [HYPHEN] s = hyphenate s.
Proof.
  unfold hyphenate.
  remember [HYPHEN] as by_ eqn:Hby.
  funelim (replace_spaces by_ s); simp replace_spaces.
  all: subst; simpl; try reflexivity.
  all: match goal with E : is_space _ = _ |- _ => rewrite E end.
  - rewrite hyphenate_in_run. f_equal.
    match goal with IH : replace_spaces _ _ = hyphenate_from _ _ |- _ => exact IH end.
  - f_equal.
    match goal with IH : replace_spaces _ _ = hyphenate_from _ _ |- _ => exact IH end.
Qed.

Lemma hyphenate_from_no_space (b : bool) (s : jsstring) :
  forallb (fun c => negb (is_space c)) (hyphenate_from b s) = true.
Proof.
  revert b. induction s as [|c r IH]; intros b; simpl; [reflexivity|].
  destruct (is_space c) eqn:E.
  - destruct b; simpl; rewrite ?IH; reflexivity.
  - simpl. rewrite E, IH. reflexivity.
Qed.

(** ** Traces *)

Lemma writes_app (a b : list Event) : writes (a ++ b) = writes a ++ writes b.
Proof.
  induction a as [|e a IH]; simpl; [reflexivity|].
  destruct e; simpl; rewrite IH; reflexivity.
Qed.

Lemma spawned_app (a b : list Event) : spawned (a ++ b) = spawned a ++ spawned b.
Proof.
  induction a as [|e a IH]; simpl; [reflexivity|].
  destruct e; simpl; rewrite IH; reflexivity.
Qed.

Lemma writes_warned (params : Params) : writes (warned params) = [].
Proof. unfold warned. destruct (negb _); reflexivity. Qed.

Lemma spawned_warned (params : Params) : spawned (warned params) = [].
Proof. unfold warned. destruct (negb _); reflexivity. Qed.

(** What saving a copy adds to the trace: no subprocess, at most one write. *)
Lemma spawned_saved (rt : Runtime) (params : Params) (filename : jsstring) (v : Value) :
  spawned (snd (savedThenConcluded rt params filename v)) = [].
Proof.
  unfold savedThenConcluded.
  destruct (saveTranscript params); [|reflexivity].
  destruct (Path.join _); reflexivity.
Qed.

Lemma writes_saved (rt : Runtime) (params : Params) (filename : jsstring) (v : Value) :
  writes (snd (savedThenConcluded rt params filename v))
  = if saveTranscript params then
      match Path.join [transcriptPath params; PString filename] with
      | Returned path => [(path, v)]
      | Thrown _ => []
      end
    else [].
Proof.
  unfold savedThenConcluded.
  destruct (saveTranscript params); [|reflexivity].
  destruct (Path.join _); reflexivity.
Qed.

Ltac trace_simpl :=
  repeat (rewrite ?writes_app, ?spawned_app, ?writes_warned, ?spawned_warned,
                  ?writes_saved, ?spawned_saved; simpl).

(** The subprocesses of a request, whatever its outcome. *)
Lemma spawned_trace (rt : Runtime) (params : Params) :
  spawned (trace rt params)
  = match sourceType params with
    | LocalFile => []
    | Youtube => [ytCommand params]
    | Api => [curlCommand rt params]
    end.
Proof.
  rewrite trace_closed_form. unfold closed_form.
  destruct (sourceType params).
  - destruct (target_file params); trace_simpl; reflexivity.
  - destruct (execSync rt (ytCommand params)); trace_simpl; [|reflexivity].
    destruct (savedThenConcluded rt params _ _) as [envelope tr] eqn:E.
    trace_simpl. change tr with (snd (envelope, tr)). rewrite <- E. trace_simpl. reflexivity.
  - destruct (execSync rt (curlCommand rt params)); trace_simpl; [|reflexivity].
    destruct (JSON_parse rt a); trace_simpl; [|reflexivity].
    destruct (get_data a0); trace_simpl; [|reflexivity].
    destruct (savedThenConcluded rt params _ _) as [envelope tr] eqn:E.
    trace_simpl. change tr with (snd (envelope, tr)). rewrite <- E. trace_simpl. reflexivity.
Qed.

(** The transcript writes of a request, whatever its outcome. *)
Lemma writes_trace (rt : Runtime) (params : Params) :
  writes (trace rt params)
  = match sourceType params with
    | LocalFile => []
    | Youtube =>
        match acquired rt params with
        | Returned v => writes (snd (savedThenConcluded rt params (ytTranscriptFilename params) v))
        | Thrown _ => []
        end
    | Api =>
        match acquired rt params with
        | Returned v => writes (snd (savedThenConcluded rt params (apiTranscriptFilename params) v))
        | Thrown _ => []
        end
    end.
Proof.
  rewrite trace_closed_form. unfold closed_form, acquired.
  destruct (sourceType params).
  - destruct (target_file params); trace_simpl; reflexivity.
  - destruct (execSync rt (ytCommand params)); trace_simpl; [|reflexivity].
    destruct (savedThenConcluded rt params _ _) as [envelope tr] eqn:E.
    trace_simpl. change tr with (snd (envelope, tr)) at 1. rewrite <- E. trace_simpl. reflexivity.
  - destruct (execSync rt (curlCommand rt params)); trace_simpl; [|reflexivity].
    destruct (JSON_parse rt a); trace_simpl; [|reflexivity].
    destruct (get_data a0); trace_simpl; [|reflexivity].
    destruct (savedThenConcluded rt params _ _) as [envelope tr] eqn:E.
    trace_simpl. change tr with (snd (envelope, tr)) at 1. rewrite <- E. trace_simpl. reflexivity.
Qed.

(** The envelope of a request, by what its acquisition gave. *)
Lemma response_by_acquisition (rt : Runtime) (params : Params) :
  response rt params
  = Returned
      match sourceType params, acquired rt params with
      | LocalFile, Thrown m =>
          match target_file params with
          | Returned path => {| isError := true; content := [couldNotRead path] |}
          | Thrown m' => errorEnvelope m'
          end
      | LocalFile, Returned v => concluded params v
      | Youtube, Returned v => fst (savedThenConcluded rt params (ytTranscriptFilename params) v)
      | Api, Returned v => fst (savedThenConcluded rt params (apiTranscriptFilename params) v)
      | _, Thrown m => errorEnvelope m
      end.
Proof.
  rewrite response_closed_form. unfold closed_form, acquired. f_equal.
  destruct (sourceType params).
  - destruct (target_file params); [|reflexivity].
    destruct (readFile rt a); reflexivity.
  - destruct (execSync rt (ytCommand params)); [|reflexivity].
    destruct (savedThenConcluded rt params _ _); reflexivity.
  - destruct (execSync rt (curlCommand rt params)); [|reflexivity].
    destruct (JSON_parse rt a); [|reflexivity].
    destruct (get_data a0); [|reflexivity].
    destruct (savedThenConcluded rt params _ _); reflexivity.
Qed.

(** ** The note-taker service *)

Lemma ytCommand_starts (params : Params) :
  starts_with noteCommand (ytCommand params) = false.
Proof. reflexivity. Qed.

Lemma curlCommand_starts (rt : Runtime) (params : Params) :
  starts_with noteCommand (curlCommand rt params) = false.
Proof. reflexivity. Qed.

(** C1: the claim says that the note-rendering collaborator is run as a
    subprocess before the success envelope is returned.  The handler binds
    [noteCommand] and [promptArgs] and never runs them: the subprocesses of a
    request are exactly the transcript helper of its source type (none for a
    local file), and no command it runs starts with the note-taker command
    line. *)
Theorem note_taker_never_spawned (rt : Runtime) (params : Params) :
  spawned (trace rt params)
  = match sourceType params with
    | LocalFile => []
    | Youtube => [ytCommand params]
    | Api => [curlCommand rt params]
    end
  /\ existsb (starts_with noteCommand) (spawned (trace rt params)) = false.
Proof.
  rewrite spawned_trace. split; [reflexivity|].
  destruct (sourceType params); cbn [existsb];
    rewrite ?ytCommand_starts, ?curlCommand_starts; reflexivity.
Qed.

(** A local-file request that succeeds: the envelope announces the notes, the
    only thing done was reading the transcript. *)
Example note_taker_not_spawned_on_success :
  succeeded (response diskHello localHello) = true
  /\ trace diskHello localHello = [EvReadFile (mathTranscripts ++ lit "/lec1.txt")].
Proof. vm_compute. split; reflexivity. Qed.

(** ** Local files *)

(** A local-file request whose target path could be formed and whose target
    file cannot be read ends with the error envelope that names the file
    ("Could not read file at ..."), and has written no file and spawned no
    subprocess. *)
Theorem missing_local_file_reported (rt : Runtime) (params : Params) (target : jsstring) :
  sourceType params = LocalFile ->
  target_file params = Returned target ->
  unreadable rt target = true ->
  response rt params = Returned {| isError := true; content := [couldNotRead target] |}
  /\ writes (trace rt params) = []
  /\ spawned (trace rt params) = [].
Proof.
  intros Hsrc Htarget Hread.
  rewrite response_by_acquisition, writes_trace, spawned_trace.
  unfold acquired. rewrite Hsrc, Htarget.
  unfold unreadable in Hread.
  destruct (readFile rt target); [discriminate|].
  repeat split.
Qed.

Lemma missing_local_file_reported_witness :
  sourceType localHello = LocalFile
  /\ target_file localHello = Returned (mathTranscripts ++ lit "/lec1.txt")
  /\ unreadable diskBare (mathTranscripts ++ lit "/lec1.txt") = true
  /\ response diskBare localHello
     = Returned {| isError := true;
                   content := [couldNotRead (mathTranscripts ++ lit "/lec1.txt")] |}
  /\ writes (trace diskBare localHello) = []
  /\ spawned (trace diskBare localHello) = [].
Proof.
  split; [reflexivity|]. split; [reflexivity|]. split; [reflexivity|].
  apply (@missing_local_file_reported diskBare localHello (mathTranscripts ++ lit "/lec1.txt"));
    reflexivity.
Defined.

(** ** The HTTP-fetch collaborator *)

(** Concluding on [undefined] fails at [transcriptContent.length]. *)
Lemma concluded_undefined (params : Params) :
  exists cause, concluded params VUndefined = errorEnvelope cause.
Proof.
  unfold concluded, length_text. destruct (Path.join _); eauto.
Qed.

Lemma saved_undefined (rt : Runtime) (params : Params) (filename : jsstring) :
  exists cause, fst (savedThenConcluded rt params filename VUndefined) = errorEnvelope cause.
Proof.
  unfold savedThenConcluded.
  destruct (saveTranscript params); simpl; [|apply concluded_undefined].
  destruct (Path.join _); simpl; [|eauto].
  destruct (writeFile rt a VUndefined); [apply concluded_undefined|eauto].
Qed.

(** A parsed value without a [data] field yields [undefined], or the access
    itself throws (on [null]). *)
Lemma lacks_data_get_data (apiResponse : Json) :
  lacks_data apiResponse = true ->
  get_data apiResponse = Returned VUndefined \/ exists m, get_data apiResponse = Thrown m.
Proof.
  unfold lacks_data, get_data.
  destruct apiResponse; intros H; eauto.
  destruct (own_member members (lit "data")); [discriminate|eauto].
Qed.

(** C4: an http-api request whose fetch subprocess exits non-zero, or prints
    something that is not JSON, or prints JSON without a [data] field, ends
    with the error envelope of the outer [catch] ("Error generating notes:
    ..."), never with a success envelope. *)
Theorem fetch_failure_reported (rt : Runtime) (params : Params) :
  sourceType params = Api ->
  FetchFailure rt params ->
  exists cause,
    response rt params
    = Returned {| isError := true; content := [errorGeneratingNotes cause] |}.
Proof.
  intros Hsrc Hfail.
  rewrite response_by_acquisition. unfold acquired. rewrite Hsrc.
  destruct Hfail as [m Hexec | stdout m Hexec Hparse | stdout apiResponse Hexec Hparse Hdata];
    rewrite Hexec; [eexists; reflexivity|rewrite Hparse..]; [eexists; reflexivity|].
  destruct (lacks_data_get_data _ Hdata) as [Hget | [m Hget]]; rewrite Hget.
  - destruct (saved_undefined rt params (apiTranscriptFilename params)) as [cause Hc].
    exists cause. rewrite Hc. reflexivity.
  - eexists; reflexivity.
Qed.

Lemma fetch_failure_reported_witness :
  exists cause,
    response fetchPrintsEmptyObject apiNamed
    = Returned {| isError := true; content := [errorGeneratingNotes cause] |}.
Proof.
  apply (@fetch_failure_reported fetchPrintsEmptyObject apiNamed).
  - reflexivity.
  - apply (@MissingData fetchPrintsEmptyObject apiNamed (lit "{}") (JObj [])); reflexivity.
Defined.

(** ** Derived filenames *)

Lemma courseSlug_hyphenate (params : Params) :
  courseSlug params = hyphenate (courseName params).
Proof. apply replace_spaces_hyphenate. Qed.

(** C7: with no [transcriptFilename] supplied, the filename of a saved video
    transcript is the course name with every white-space run replaced by a
    hyphen, then [-Lecture-], the lecture number and [-YT.txt]; any transcript
    write of the request goes to that name under the resolved transcript
    directory; for course [Math] and lecture [3] the name is
    [Math-Lecture-3-YT.txt], and once the transcript helper has printed the
    transcript the copy is written under that name in the transcript
    directory of [Math]. *)
Theorem derived_youtube_filename (rt : Runtime) (params : Params) :
  sourceType params = Youtube ->
  saveTranscript params = true ->
  transcriptFilename params = None ->
  ytTranscriptFilename params
  = derived_filename (courseName params) (lectureNumber params) (lit "-YT.txt")
  /\ (forall path data,
        In (path, data) (writes (trace rt params)) ->
        Path.join [transcriptPath params;
                   PString (derived_filename (courseName params) (lectureNumber params)
                                             (lit "-YT.txt"))]
        = Returned path)
  /\ (courseName params = lit "Math" -> lectureNumber params = lit "3" ->
      ytTranscriptFilename params = lit "Math-Lecture-3-YT.txt"
      /\ forall text,
           execSync rt (ytCommand params) = Returned text ->
           writes (trace rt params)
           = [(lit "/Users/lmarte/Documents/Obsidian Vault/Math/transcripts/Math-Lecture-3-YT.txt",
               VJson (JStr text))]).
Proof.
  intros Hsrc Hsave Hname.
  assert (Hlaw : ytTranscriptFilename params
                 = derived_filename (courseName params) (lectureNumber params) (lit "-YT.txt")).
  { unfold ytTranscriptFilename, derived_filename. rewrite Hname, courseSlug_hyphenate.
    reflexivity. }
  split; [exact Hlaw|]. split.
  - intros path data Hin.
    rewrite writes_trace, Hsrc in Hin.
    destruct (acquired rt params); [|destruct Hin].
    rewrite writes_saved, Hsave, Hlaw in Hin.
    destruct (Path.join _); [|destruct Hin].
    destruct Hin as [Heq | []]. congruence.
  - intros Hcourse Hlecture. split.
    + rewrite Hlaw, Hcourse, Hlecture. reflexivity.
    + intros text Hexec.
      rewrite writes_trace, Hsrc. unfold acquired. rewrite Hsrc, Hexec.
      rewrite writes_saved, Hsave, Hlaw. unfold transcriptPath.
      rewrite Hcourse, Hlecture. reflexivity.
Qed.

Lemma derived_youtube_filename_witness :
  In (mathTranscripts ++ lit "/Math-Lecture-3-YT.txt", VJson (JStr (lit "so today")))
     (writes (trace helperPrints videoMath))
  /\ ytTranscriptFilename videoMath = lit "Math-Lecture-3-YT.txt"
  /\ Path.join [transcriptPath videoMath;
                PString (derived_filename (lit "Math") (lit "3") (lit "-YT.txt"))]
     = Returned (mathTranscripts ++ lit "/Math-Lecture-3-YT.txt").
Proof.
  destruct (@derived_youtube_filename helperPrints videoMath eq_refl eq_refl eq_refl)
    as (_ & Hwrite & Hmath).
  assert (Hin : In (mathTranscripts ++ lit "/Math-Lecture-3-YT.txt",
                    VJson (JStr (lit "so today")))
                   (writes (trace helperPrints videoMath))).
  { left. reflexivity. }
  split; [exact Hin|]. split.
  - apply (Hmath eq_refl eq_refl).
  - exact (Hwrite _ _ Hin).
Defined.

(** C10: with no [transcriptFilename] supplied, the filename of a saved
    http-api transcript is the course name with every white-space run replaced
    by a hyphen, then [-Lecture-], the lecture number and [-API.txt]; any
    transcript write of the request goes to that name under the resolved
    transcript directory. *)
Theorem derived_api_filename (rt : Runtime) (params : Params) :
  sourceType params = Api ->
  saveTranscript params = true ->
  transcriptFilename params = None ->
  apiTranscriptFilename params
  = derived_filename (courseName params) (lectureNumber params) (lit "-API.txt")
  /\ (forall path data,
        In (path, data) (writes (trace rt params)) ->
        Path.join [transcriptPath params;
                   PString (derived_filename (courseName params) (lectureNumber params)
                                             (lit "-API.txt"))]
        = Returned path).
Proof.
  intros Hsrc Hsave Hname.
  assert (Hlaw : apiTranscriptFilename params
                 = derived_filename (courseName params) (lectureNumber params) (lit "-API.txt")).
  { unfold apiTranscriptFilename, derived_filename. rewrite Hname, courseSlug_hyphenate.
    reflexivity. }
  split; [exact Hlaw|].
  intros path data Hin.
  rewrite writes_trace, Hsrc in Hin.
  destruct (acquired rt params); [|destruct Hin].
  rewrite writes_saved, Hsave, Hlaw in Hin.
  destruct (Path.join _); [|destruct Hin].
  destruct Hin as [Heq | []]. congruence.
Qed.

Lemma derived_api_filename_witness :
  apiTranscriptFilename apiDerived = lit "Approximations-Algorithms-Lecture-2-API.txt"
  /\ In (lit "/Users/lmarte/Documents/Projects/CU-Boulder/Data-Structures-Algo/Approx-Algo-LP/Approximations-Algorithms-Lecture-2-API.txt",
         VJson (JStr (lit "hello")))
        (writes (trace fetchPrints apiDerived)).
Proof.
  destruct (@derived_api_filename fetchPrints apiDerived eq_refl eq_refl eq_refl)
    as (Hlaw & _).
  split.
  - rewrite Hlaw. reflexivity.
  - left. reflexivity.
Defined.

(** ** Course paths *)

(** The fallback of [transcriptPath || params.sourceLocation] is never taken:
    whatever the course, the resolved transcript path is truthy. *)
Lemma transcriptPath_truthy (params : Params) : path_truthy (transcriptPath params) = true.
Proof.
  unfold transcriptPath, or_path.
  destruct (member COURSE_TRANSCRIPT_PATHS (courseName params)) as [v|]; [|reflexivity].
  destruct (path_truthy v) eqn:E; [exact E|reflexivity].
Qed.

Lemma sourceShown_transcriptPath (params : Params) :
  sourceShown params = path_text (transcriptPath params).
Proof. unfold sourceShown. rewrite transcriptPath_truthy. reflexivity. Qed.

(** Resolution never throws. *)
Lemma resolveCoursePaths_returns (params : Params) (tr : list Event) :
  exists tr', resolveCoursePaths params tr
              = (Returned (notesPath params, transcriptPath params), tr').
Proof.
  unfold resolveCoursePaths. unfold_run.
  destruct (negb _); simpl; eauto.
Qed.

(** A course that is in neither table and does not bear the name of a member
    of [Object.prototype] resolves to the default paths, with the warning. *)
Lemma unmapped_course_defaults (params : Params) :
  mapped (courseName params) = false ->
  inherited (courseName params) = false ->
  resolveCoursePaths params []
  = (Returned (PString DEFAULT_NOTES_PATH, PString DEFAULT_TRANSCRIPT_PATH),
     [EvConsoleError (unknownCourseWarning params)]).
Proof.
  unfold mapped. intros Hmapped Hinherited.
  destruct (own_entry COURSE_NOTES_PATHS (courseName params)) eqn:En; [discriminate|].
  destruct (own_entry COURSE_TRANSCRIPT_PATHS (courseName params)) eqn:Et; [discriminate|].
  unfold resolveCoursePaths, notesPath, transcriptPath, member. unfold_run.
  rewrite En, Et, Hinherited. reflexivity.
Qed.

(** C8: the claim says that every course name without an entry in the mapping
    tables resolves to the default directories with a warning.  The course
    name [constructor] has no entry in either table, yet the table reads find
    [Object.prototype.constructor]: resolution returns that function for both
    paths and prints no warning. *)
Theorem constructor_course_not_defaulted :
  mapped (lit "constructor") = false
  /\ resolveCoursePaths localConstructor []
     = (Returned (PBuiltin (lit "constructor"), PBuiltin (lit "constructor")), []).
Proof. split; reflexivity. Qed.

(** C9: the claim says that the [Source:] line of a success message shows the
    resolved transcript directory, which is always a non-empty string.  For
    the course name [constructor] the request below succeeds and its
    [Source:] line shows the text of the function [Object]. *)
Theorem constructor_course_source_line :
  transcriptPath localConstructor = PBuiltin (lit "constructor")
  /\ response diskTmp localConstructor
     = Returned
         {| isError := false;
            content :=
              [ lit "Notes successfully generated from local-file source!" ++ [LF; LF]
                ++ lit "Course: constructor" ++ [LF]
                ++ lit "Source: function Object() { [native code] }" ++ [LF]
                ++ lit "Notes saved to: /tmp/notes/constructor-Lecture-1.md" ++ [LF; LF]
                ++ lit "Transcript length: 5 characters" ] |}.
Proof. split; reflexivity. Qed.

(** ** The transcript a request holds *)

(** In the handler's own terms: a request that calls [fs.writeFile] or
    succeeds has come through step 2 with a value in [transcriptContent],
    every write carries that value, and for a local file or a video it is a
    string; when step 2 throws, nothing is written and the request ends with
    an error envelope. *)
Theorem acquisition_precedes_writer (rt : Runtime) (params : Params) :
  (writes (trace rt params) <> [] \/ succeeded (response rt params) = true ->
   exists v, acquired rt params = Returned v
             /\ (forall path data, In (path, data) (writes (trace rt params)) -> data = v)
             /\ (sourceType params <> Api -> is_text v = true))
  /\ (forall m, acquired rt params = Thrown m ->
        writes (trace rt params) = [] /\ failed (response rt params) = true).
Proof.
  rewrite writes_trace, response_by_acquisition.
  split.
  - intros H.
    destruct (acquired rt params) as [v|m] eqn:Eacq.
    + exists v. split; [reflexivity|]. split.
      * intros path data Hin.
        destruct (sourceType params); [destruct Hin| |];
          rewrite writes_saved in Hin;
          (destruct (saveTranscript params); [|destruct Hin]);
          (destruct (Path.join _); [|destruct Hin]);
          destruct Hin as [Heq | []]; congruence.
      * intros Hsrc. unfold acquired in Eacq.
        destruct (sourceType params); [| |congruence].
        -- destruct (target_file params); [|discriminate].
           destruct (readFile rt a); inversion Eacq; reflexivity.
        -- destruct (execSync rt (ytCommand params)); inversion Eacq; reflexivity.
    + exfalso. destruct H as [H | H].
      * destruct (sourceType params); apply H; reflexivity.
      * destruct (sourceType params); simpl in H; try discriminate.
        destruct (target_file params); discriminate.
  - intros m Hm. rewrite Hm.
    destruct (sourceType params); simpl; repeat split.
    destruct (target_file params); reflexivity.
Qed.

Lemma acquisition_precedes_writer_witness :
  exists v, acquired diskEmpty localHello = Returned v
            /\ (forall path data,
                  In (path, data) (writes (trace diskEmpty localHello)) -> data = v)
            /\ (sourceType localHello <> Api -> is_text v = true).
Proof.
  apply (proj1 (acquisition_precedes_writer diskEmpty localHello)).
  right. reflexivity.
Defined.

(** ** Saved copies *)

Lemma concluded_succeeds_defined (params : Params) (v : Value) :
  isError (concluded params v) = false -> v <> VUndefined.
Proof.
  unfold concluded, length_text. intros H ->.
  destruct (Path.join _); discriminate.
Qed.

(** A [data] that is not [undefined] is an own property of a parsed object. *)
Lemma get_data_defined (apiResponse : Json) (data : Json) :
  get_data apiResponse = Returned (VJson data) ->
  exists members, apiResponse = JObj members /\ own_member members (lit "data") = Some data.
Proof.
  unfold get_data. destruct apiResponse; try discriminate.
  destruct (own_member members (lit "data")) eqn:E; [|discriminate].
  intros H. inversion H. subst. eauto.
Qed.

Lemma apiTranscriptFilename_law (params : Params) :
  apiTranscriptFilename params = nonempty_or_derived params (lit "-API.txt").
Proof.
  unfold apiTranscriptFilename, nonempty_or_derived, derived_filename.
  rewrite courseSlug_hyphenate. reflexivity.
Qed.

(** An http-api request with [saveTranscript] set that succeeds has handed
    exactly the [data] field of the object the collaborator printed to one
    [fs.writeFile], at the file named by [transcriptFilename] under the
    resolved transcript directory, the derived name standing in when
    [transcriptFilename] is absent or empty. *)
Theorem api_copy_holds_data (rt : Runtime) (params : Params) :
  sourceType params = Api ->
  saveTranscript params = true ->
  succeeded (response rt params) = true ->
  api_copy_saved rt params (nonempty_or_derived params (lit "-API.txt")).
Proof.
  intros Hsrc Hsave Hok.
  unfold api_copy_saved.
  rewrite writes_trace. rewrite response_by_acquisition in Hok.
  rewrite Hsrc in *. unfold acquired in *. rewrite Hsrc in *.
  rewrite <- apiTranscriptFilename_law.
  destruct (execSync rt (curlCommand rt params)) as [stdout|]; [|discriminate].
  destruct (JSON_parse rt stdout) as [apiResponse|] eqn:Hparse; [|discriminate].
  destruct (get_data apiResponse) as [v|] eqn:Hget; [|discriminate].
  rewrite writes_saved. unfold savedThenConcluded in Hok. rewrite Hsave in *.
  destruct (Path.join _) as [path|]; [|discriminate].
  simpl in Hok.
  destruct (writeFile rt path v) as [[]|] eqn:Hwrite; [|discriminate].
  apply negb_true_iff in Hok. apply concluded_succeeds_defined in Hok.
  destruct v as [|data]; [congruence|].
  destruct (get_data_defined _ Hget) as (members & -> & Hmember).
  exists stdout, members, data, path. repeat split; solve [assumption | reflexivity].
Qed.

Lemma api_copy_holds_data_witness :
  api_copy_saved fetchPrints apiNamed (lit "t.txt")
  /\ writes (trace fetchPrints apiNamed)
     = [(mathTranscripts ++ lit "/t.txt", VJson (JStr (lit "hello")))].
Proof.
  split.
  - apply (@api_copy_holds_data fetchPrints apiNamed); reflexivity.
  - reflexivity.
Defined.

(** C6, as the code has it: the Artifact Writer is invoked only when
    [saveTranscript] is set and the source is a video or an endpoint; a
    local-file request never writes; and a request with the flag set and such
    a source writes once, the acquired transcript, whenever its acquisition
    succeeded and the path of the copy could be formed. *)
Theorem writer_only_when_saving (rt : Runtime) (params : Params) :
  (writes (trace rt params) <> [] ->
   saveTranscript params = true
   /\ (sourceType params = Youtube \/ sourceType params = Api))
  /\ (sourceType params = LocalFile -> writes (trace rt params) = [])
  /\ (forall v path,
        saveTranscript params = true ->
        sourceType params <> LocalFile ->
        acquired rt params = Returned v ->
        Path.join [transcriptPath params; PString (savedFilename params)] = Returned path ->
        writes (trace rt params) = [(path, v)]).
Proof.
  rewrite writes_trace. unfold savedFilename. split; [|split].
  - intros H.
    destruct (sourceType params); [destruct H; reflexivity| |];
      (destruct (acquired rt params); [|destruct H; reflexivity]);
      rewrite writes_saved in H;
      (destruct (saveTranscript params); [|destruct H; reflexivity]);
      split; auto.
  - intros ->. reflexivity.
  - intros v path Hsave Hsrc Hacq Hjoin. rewrite Hacq.
    destruct (sourceType params); [congruence| |];
      rewrite writes_saved, Hsave, Hjoin; reflexivity.
Qed.

Lemma writer_only_when_saving_witness :
  writes (trace helperPrints videoMath)
  = [(mathTranscripts ++ lit "/Math-Lecture-3-YT.txt", VJson (JStr (lit "so today")))]
  /\ saveTranscript videoMath = true
  /\ (sourceType videoMath = Youtube \/ sourceType videoMath = Api).
Proof.
  destruct (writer_only_when_saving helperPrints videoMath) as (Honly & _ & Hwhen).
  split.
  - apply Hwhen; [reflexivity|discriminate|reflexivity|reflexivity].
  - apply Honly. discriminate.
Defined.

(** C6 as stated fails: the flag is set and the source is a video, but the
    transcript helper exits non-zero and the Artifact Writer is never
    reached. *)
Lemma writer_skipped_when_helper_fails : ~ writer_exactly_when_saving diskBare videoMath.
Proof.
  intros [_ H]. apply H; [|reflexivity].
  split; [reflexivity|left; reflexivity].
Qed.

(** ** Worked examples *)

Example replace_spaces_run :
  replace_spaces [HYPHEN] (lit "Approximations  Algorithms")
  = lit "Approximations-Algorithms".
Proof. reflexivity. Qed.

Example replace_spaces_edges :
  replace_spaces [HYPHEN] ([SPACE; 9; 12288] ++ lit "a b" ++ [160])%N = lit "-a-b-".
Proof. reflexivity. Qed.

Example hyphenate_has_no_space (s : jsstring) :
  forallb (fun c => negb (is_space c)) (hyphenate s) = true.
Proof. apply hyphenate_from_no_space. Qed.

Example join_normalizes :
  Path.join [PString (lit "/Users/x/Obsidian Vault"); PString (lit "a//b/../c.txt")]
  = Returned (lit "/Users/x/Obsidian Vault/a/c.txt").
Proof. reflexivity. Qed.

Example join_skips_empty :
  Path.join [PString (lit "/a/b"); PString []] = Returned (lit "/a/b").
Proof. reflexivity. Qed.

Example join_above_root :
  Path.join [PString (lit "a/"); PString (lit "../../x/")] = Returned (lit "../x/").
Proof. reflexivity. Qed.

Example join_rejects_function :
  Path.join [PBuiltin (lit "constructor"); PString (lit "lec1.txt")]
  = Thrown (lit "The " ++ [DQUOTE] ++ lit "path" ++ [DQUOTE]
            ++ lit " argument must be of type string. Received function Object").
Proof. reflexivity. Qed.

(** The end-to-end scenario of the specification: [lec1.txt] holds [hello]
    under the transcript directory of [Math]. *)
Example local_file_scenario :
  response diskHello localHello
  = Returned
      {| isError := false;
         content :=
           [ lit "Notes successfully generated from local-file source!" ++ [LF; LF]
             ++ lit "Course: Math" ++ [LF]
             ++ lit "Source: /Users/lmarte/Documents/Obsidian Vault/Math/transcripts" ++ [LF]
             ++ lit "Notes saved to: /Users/lmarte/Documents/Obsidian Vault/Math/Math-Lecture-1.md"
             ++ [LF; LF]
             ++ lit "Transcript length: 5 characters" ] |}.
Proof. reflexivity. Qed.

(** A fetch helper that prints an object without [data], the copy not asked
    for: the request still fails, at [transcriptContent.length]. *)
Example missing_data_without_saving :
  response fetchPrintsEmptyObject
           (request (lit "Math") (lit "2") Api endpoint false None None)
  = Returned (errorEnvelope (cannot_read "undefined" "length")).
Proof. reflexivity. Qed.

(** An unknown course with an ordinary name: default paths and a warning. *)
Example unknown_course_warns :
  resolveCoursePaths (request (lit "Physics") (lit "1") LocalFile (lit "a.txt") true None None) []
  = (Returned (PString DEFAULT_NOTES_PATH, PString DEFAULT_TRANSCRIPT_PATH),
     [EvConsoleError (lit "Warning: Unknown course " ++ [DQUOTE] ++ lit "Physics" ++ [DQUOTE]
                      ++ lit ". Using default paths.")]).
Proof. reflexivity. Qed.

(** * Further properties of the handler *)

(** ** The envelope *)

Lemma concluded_forms (params : Params) (v : Value) :
  if isError (concluded params v)
  then exists cause, content (concluded params v) = [errorGeneratingNotes cause]
  else exists out len, content (concluded params v) = [successText params out len].
Proof.
  unfold concluded.
  destruct (Path.join _); [|simpl; eauto].
  destruct (length_text v); simpl; eauto.
Qed.

Lemma saved_forms (rt : Runtime) (params : Params) (filename : jsstring) (v : Value) :
  let envelope := fst (savedThenConcluded rt params filename v) in
  if isError envelope
  then exists cause, content envelope = [errorGeneratingNotes cause]
  else exists out len, content envelope = [successText params out len].
Proof.
  unfold savedThenConcluded.
  destruct (saveTranscript params); [|apply concluded_forms].
  destruct (Path.join _); [|simpl; eauto].
  destruct (writeFile rt a v); [apply concluded_forms|simpl; eauto].
Qed.

(** No exception leaves the handler.  Every request is answered with an
    envelope of one of three shapes: the success text; the error text of the
    outer [catch]; or, for a local file that could not be read and only then,
    the text that names the file. *)
Theorem handler_answers (rt : Runtime) (params : Params) :
  exists envelope,
    response rt params = Returned envelope
    /\ (if isError envelope
        then (exists cause, content envelope = [errorGeneratingNotes cause])
             \/ (sourceType params = LocalFile
                 /\ exists path, target_file params = Returned path
                                 /\ unreadable rt path = true
                                 /\ content envelope = [couldNotRead path])
        else exists out len, content envelope = [successText params out len]).
Proof.
  rewrite response_by_acquisition. eexists. split; [reflexivity|].
  destruct (sourceType params) eqn:Hsrc.
  - unfold acquired. rewrite Hsrc.
    destruct (target_file params) as [path|m] eqn:Htarget.
    + destruct (readFile rt path) as [text|m] eqn:Hread.
      * pose proof (concluded_forms params (VJson (JStr text))) as H.
        destruct (isError (concluded params (VJson (JStr text)))); [left|]; exact H.
      * simpl. right. split; [reflexivity|]. exists path.
        unfold unreadable. rewrite Hread. repeat split.
    + simpl. left. eauto.
  - destruct (acquired rt params) as [v|m]; [|simpl; left; eauto].
    pose proof (saved_forms rt params (ytTranscriptFilename params) v) as H. simpl in H.
    destruct (isError _); [left|]; exact H.
  - destruct (acquired rt params) as [v|m]; [|simpl; left; eauto].
    pose proof (saved_forms rt params (apiTranscriptFilename params) v) as H. simpl in H.
    destruct (isError _); [left|]; exact H.
Qed.

(** A request whose source yielded the string [s], whose copy (when one is
    due) was written, and whose notes path could be formed, succeeds, and the
    message counts the code units of [s]. *)
Theorem success_reports_length (rt : Runtime) (params : Params) (s out : jsstring) :
  acquired rt params = Returned (VJson (JStr s)) ->
  (sourceType params = LocalFile
   \/ saveTranscript params = false
   \/ exists path,
        Path.join [transcriptPath params; PString (savedFilename params)] = Returned path
        /\ writeFile rt path (VJson (JStr s)) = Returned tt) ->
  Path.join [theOutputDirectory params; PString (theOutputFilename params ++ lit ".md")]
  = Returned out ->
  response rt params
  = Returned {| isError := false;
                content := [successText params out (decimal (length s))] |}.
Proof.
  intros Hacq Hcopy Hout.
  assert (Hconcluded : concluded params (VJson (JStr s))
                       = {| isError := false;
                            content := [successText params out (decimal (length s))] |}).
  { unfold concluded. rewrite Hout. reflexivity. }
  rewrite response_by_acquisition, Hacq. f_equal.
  unfold savedFilename in Hcopy.
  destruct (sourceType params) eqn:Hsrc; [exact Hconcluded| |];
    unfold savedThenConcluded;
    (destruct (saveTranscript params); [|exact Hconcluded]);
    (destruct Hcopy as [Hc | [Hc | (path & Hjoin & Hwrite)]]; [discriminate..|]);
    rewrite Hjoin; simpl; rewrite Hwrite; exact Hconcluded.
Qed.

Lemma success_reports_length_witness :
  response helperPrints videoMath
  = Returned
      {| isError := false;
         content :=
           [successText videoMath
              (lit "/Users/lmarte/Documents/Obsidian Vault/Math/Math-Lecture-3.md")
              (lit "8")] |}.
Proof.
  apply (@success_reports_length helperPrints videoMath (lit "so today")).
  - reflexivity.
  - right. right. exists (mathTranscripts ++ lit "/Math-Lecture-3-YT.txt").
    split; reflexivity.
  - reflexivity.
Defined.

(** A transcript write that is rejected fails the request with the cause of
    the rejection: the transcript that was acquired is dropped, and the write
    stays in the trace. *)
Theorem rejected_write_fails_request
        (rt : Runtime) (params : Params) (v : Value) (path m : jsstring) :
  sourceType params <> LocalFile ->
  saveTranscript params = true ->
  acquired rt params = Returned v ->
  Path.join [transcriptPath params; PString (savedFilename params)] = Returned path ->
  writeFile rt path v = Thrown m ->
  response rt params = Returned (errorEnvelope m)
  /\ writes (trace rt params) = [(path, v)].
Proof.
  intros Hsrc Hsave Hacq Hjoin Hwrite.
  rewrite response_by_acquisition, writes_trace, Hacq.
  unfold savedFilename in Hjoin.
  destruct (sourceType params); [congruence| |];
    rewrite writes_saved; unfold savedThenConcluded;
    rewrite Hsave, Hjoin; simpl; rewrite Hwrite; split; reflexivity.
Qed.

Lemma rejected_write_fails_request_witness :
  response (readOnlyDisk helperPrints) videoMath
  = Returned (errorEnvelope
                (lit "EACCES: permission denied, open '"
                 ++ mathTranscripts ++ lit "/Math-Lecture-3-YT.txt" ++ lit "'"))
  /\ writes (trace (readOnlyDisk helperPrints) videoMath)
     = [(mathTranscripts ++ lit "/Math-Lecture-3-YT.txt", VJson (JStr (lit "so today")))].
Proof.
  apply (@rejected_write_fails_request (readOnlyDisk helperPrints) videoMath);
    solve [reflexivity | discriminate].
Defined.

(** A video request whose transcript helper fails ends with the error
    envelope that carries the helper's own message; the helper was the only
    thing run and nothing was written. *)
Theorem video_helper_failure_reported (rt : Runtime) (params : Params) (m : jsstring) :
  sourceType params = Youtube ->
  execSync rt (ytCommand params) = Thrown m ->
  response rt params = Returned (errorEnvelope m)
  /\ spawned (trace rt params) = [ytCommand params]
  /\ writes (trace rt params) = [].
Proof.
  intros Hsrc Hexec.
  rewrite response_by_acquisition, spawned_trace, writes_trace.
  unfold acquired. rewrite Hsrc, Hexec. repeat split.
Qed.

Lemma video_helper_failure_reported_witness :
  response diskBare videoMath
  = Returned (errorEnvelope
                (lit "Command failed: npx -y @anaisbetts/mcp-youtube https://youtu.be/abc"))
  /\ spawned (trace diskBare videoMath) = [ytCommand videoMath]
  /\ writes (trace diskBare videoMath) = [].
Proof.
  apply (@video_helper_failure_reported diskBare videoMath); reflexivity.
Defined.

(** ** The effects of a request *)

Lemma reads_app (a b : list Event) : reads (a ++ b) = reads a ++ reads b.
Proof.
  induction a as [|e a IH]; simpl; [reflexivity|].
  destruct e; simpl; rewrite IH; reflexivity.
Qed.

Lemma warnings_app (a b : list Event) : warnings (a ++ b) = warnings a ++ warnings b.
Proof.
  induction a as [|e a IH]; simpl; [reflexivity|].
  destruct e; simpl; rewrite IH; reflexivity.
Qed.

Lemma reads_warned (params : Params) : reads (warned params) = [].
Proof. unfold warned. destruct (negb _); reflexivity. Qed.

Lemma reads_saved (rt : Runtime) (params : Params) (filename : jsstring) (v : Value) :
  reads (snd (savedThenConcluded rt params filename v)) = [].
Proof.
  unfold savedThenConcluded.
  destruct (saveTranscript params); [|reflexivity].
  destruct (Path.join _); reflexivity.
Qed.

(** The trace of a request: the diagnostic of step 1, then the input and
    output of the source type, a transcript write coming last. *)
Lemma trace_shape (rt : Runtime) (params : Params) :
  exists io,
    trace rt params = warned params ++ io
    /\ warnings io = []
    /\ (io = []
        \/ (exists path, io = [EvReadFile path])
        \/ (exists command, io = [EvExecSync command])
        \/ (exists command path data, io = [EvExecSync command; EvWriteFile path data])).
Proof.
  rewrite trace_closed_form. unfold closed_form, savedThenConcluded.
  destruct (sourceType params).
  - destruct (target_file params) as [path|]; cbn [snd].
    + exists [EvReadFile path]. repeat split. eauto.
    + exists []. rewrite app_nil_r. repeat split. eauto.
  - destruct (execSync rt (ytCommand params)); cbn [snd].
    + destruct (saveTranscript params); [destruct (Path.join _) as [path|]|]; cbn [snd];
        eexists; (split; [reflexivity|]); split; eauto 8.
    + eexists; (split; [reflexivity|]); split; eauto 8.
  - destruct (execSync rt (curlCommand rt params)) as [stdout|]; cbn [snd];
      [|eexists; (split; [reflexivity|]); split; eauto 8].
    destruct (JSON_parse rt stdout) as [apiResponse|]; cbn [snd];
      [|eexists; (split; [reflexivity|]); split; eauto 8].
    destruct (get_data apiResponse); cbn [snd];
      [|eexists; (split; [reflexivity|]); split; eauto 8].
    destruct (saveTranscript params); [destruct (Path.join _) as [path|]|]; cbn [snd];
      rewrite <- ?app_assoc; eexists; (split; [reflexivity|]); split;
      try reflexivity; cbn [app]; eauto 8.
Qed.

(** A request reads a file only when its source is a local file, and then it
    reads the target file, once, whether the request succeeds or not; when
    the target path cannot be formed nothing is read. *)
Theorem reads_only_the_target (rt : Runtime) (params : Params) :
  reads (trace rt params)
  = match sourceType params with
    | LocalFile =>
        match target_file params with
        | Returned path => [path]
        | Thrown _ => []
        end
    | _ => []
    end.
Proof.
  rewrite trace_closed_form. unfold closed_form.
  destruct (sourceType params).
  - destruct (target_file params); cbn [snd];
      rewrite ?reads_app, reads_warned; reflexivity.
  - destruct (execSync rt (ytCommand params)); cbn [snd];
      [|rewrite reads_app, reads_warned; reflexivity].
    destruct (savedThenConcluded rt params _ _) as [envelope tr] eqn:E.
    cbn [snd]. rewrite reads_app, reads_warned. cbn [reads app].
    change tr with (snd (envelope, tr)). rewrite <- E. apply reads_saved.
  - destruct (execSync rt (curlCommand rt params)) as [stdout|]; cbn [snd];
      [|rewrite reads_app, reads_warned; reflexivity].
    destruct (JSON_parse rt stdout) as [apiResponse|]; cbn [snd];
      [|rewrite reads_app, reads_warned; reflexivity].
    destruct (get_data apiResponse); cbn [snd];
      [|rewrite reads_app, reads_warned; reflexivity].
    destruct (savedThenConcluded rt params _ _) as [envelope tr] eqn:E.
    cbn [snd]. rewrite !reads_app, reads_warned. cbn [reads app].
    change tr with (snd (envelope, tr)). rewrite <- E. apply reads_saved.
Qed.

(** A transcript write, when there is one, is the last thing a request does to
    the outside, and the only write: after the copy is saved the handler
    touches no file and runs no command. *)
Theorem write_comes_last (rt : Runtime) (params : Params) (path : jsstring) (data : Value) :
  In (path, data) (writes (trace rt params)) ->
  exists before,
    trace rt params = before ++ [EvWriteFile path data]
    /\ writes before = [].
Proof.
  destruct (trace_shape rt params) as (io & Htrace & _ & Hio).
  rewrite Htrace, writes_app, writes_warned. simpl.
  destruct Hio as [-> | [[p ->] | [[command ->] | (command & p & d & ->)]]];
    simpl; intros Hin; try destruct Hin as [Heq | []]; try (destruct Hin; fail).
  inversion Heq. subst p d.
  exists (warned params ++ [EvExecSync command]). split.
  - rewrite <- app_assoc. reflexivity.
  - rewrite writes_app, writes_warned. reflexivity.
Qed.

Lemma write_comes_last_witness :
  exists before,
    trace helperPrints videoMath
    = before ++ [EvWriteFile (mathTranscripts ++ lit "/Math-Lecture-3-YT.txt")
                             (VJson (JStr (lit "so today")))]
    /\ writes before = [].
Proof.
  apply (@write_comes_last helperPrints videoMath). left. reflexivity.
Defined.

(** ** The course tables *)

(** The two tables have the same keys, and no entry is empty. *)
Lemma tables_same_keys (course : jsstring) :
  own_entry COURSE_NOTES_PATHS course = None
  <-> own_entry COURSE_TRANSCRIPT_PATHS course = None.
Proof.
  unfold COURSE_NOTES_PATHS, COURSE_TRANSCRIPT_PATHS. cbn [own_entry].
  destruct (JsString.eqb (lit "Approximations Algorithms") course);
    [split; discriminate|].
  destruct (JsString.eqb (lit "Math") course); [split; discriminate|].
  split; reflexivity.
Qed.

Lemma notes_entry_truthy (course n : jsstring) :
  own_entry COURSE_NOTES_PATHS course = Some n -> truthy n = true.
Proof.
  unfold COURSE_NOTES_PATHS. cbn [own_entry].
  destruct (JsString.eqb (lit "Approximations Algorithms") course);
    [intros H; inversion H; reflexivity|].
  destruct (JsString.eqb (lit "Math") course);
    [intros H; inversion H; reflexivity|discriminate].
Qed.

Lemma transcript_entry_truthy (course t : jsstring) :
  own_entry COURSE_TRANSCRIPT_PATHS course = Some t -> truthy t = true.
Proof.
  unfold COURSE_TRANSCRIPT_PATHS. cbn [own_entry].
  destruct (JsString.eqb (lit "Approximations Algorithms") course);
    [intros H; inversion H; reflexivity|].
  destruct (JsString.eqb (lit "Math") course);
    [intros H; inversion H; reflexivity|discriminate].
Qed.

(** A course with an entry in the tables resolves to the directories of its
    entries, and no warning is printed. *)
Theorem mapped_course_resolves (params : Params) :
  mapped (courseName params) = true ->
  exists n t,
    own_entry COURSE_NOTES_PATHS (courseName params) = Some n
    /\ own_entry COURSE_TRANSCRIPT_PATHS (courseName params) = Some t
    /\ resolveCoursePaths params [] = (Returned (PString n, PString t), []).
Proof.
  unfold mapped. intros Hmapped.
  pose proof (tables_same_keys (courseName params)) as Hkeys.
  destruct (own_entry COURSE_NOTES_PATHS (courseName params)) as [n|] eqn:En.
  - destruct (own_entry COURSE_TRANSCRIPT_PATHS (courseName params)) as [t|] eqn:Et;
      [|destruct Hkeys as [_ Hk]; discriminate (Hk eq_refl)].
    exists n, t. repeat split.
    unfold resolveCoursePaths, notesPath, transcriptPath, member. unfold_run.
    rewrite En, Et. cbn [member_truthy path_truthy or_path].
    rewrite (notes_entry_truthy _ En), (transcript_entry_truthy _ Et). reflexivity.
  - destruct (own_entry COURSE_TRANSCRIPT_PATHS (courseName params)); [|discriminate].
    destruct Hkeys as [Hk _]. discriminate (Hk eq_refl).
Qed.

Lemma mapped_course_resolves_witness :
  exists n t,
    own_entry COURSE_NOTES_PATHS (lit "Math") = Some n
    /\ own_entry COURSE_TRANSCRIPT_PATHS (lit "Math") = Some t
    /\ resolveCoursePaths videoMath [] = (Returned (PString n, PString t), []).
Proof.
  apply (@mapped_course_resolves videoMath). reflexivity.
Defined.

(** The table read that decides the warning finds something exactly for the
    mapped courses and for the names of the members of [Object.prototype]. *)
Lemma notes_member_truthy (course : jsstring) :
  member_truthy (member COURSE_NOTES_PATHS course) = mapped course || inherited course.
Proof.
  unfold mapped, member.
  pose proof (tables_same_keys course) as Hkeys.
  destruct (own_entry COURSE_NOTES_PATHS course) as [n|] eqn:En.
  - cbn [member_truthy path_truthy]. rewrite (notes_entry_truthy _ En). reflexivity.
  - destruct Hkeys as [Hk _]. rewrite (Hk eq_refl).
    destruct (inherited course); reflexivity.
Qed.

(** Whatever becomes of a request, it prints the unknown-course warning at
    most once and before anything else it does, and it prints it exactly when
    the course has no entry in the tables and does not bear the name of a
    member of [Object.prototype]. *)
Theorem warning_once_and_first (rt : Runtime) (params : Params) :
  warnings (trace rt params)
  = (if mapped (courseName params) || inherited (courseName params)
     then []
     else [unknownCourseWarning params])
  /\ exists rest,
       trace rt params
       = map EvConsoleError (warnings (trace rt params)) ++ rest
       /\ warnings rest = [].
Proof.
  destruct (trace_shape rt params) as (io & Htrace & Hio & _).
  assert (Hw : warnings (trace rt params)
               = if mapped (courseName params) || inherited (courseName params)
                 then [] else [unknownCourseWarning params]).
  { rewrite Htrace, warnings_app, Hio, app_nil_r.
    unfold warned. rewrite notes_member_truthy.
    destruct (mapped (courseName params) || inherited (courseName params)); reflexivity. }
  split; [exact Hw|].
  exists io. split; [|exact Hio].
  rewrite Hw, Htrace. unfold warned. rewrite notes_member_truthy.
  destruct (mapped (courseName params) || inherited (courseName params)); reflexivity.
Qed.

(** ** The course name in file names *)

Lemma replace_spaces_spaceless (s : jsstring) :
  spaceless (replace_spaces [HYPHEN] s) = true.
Proof.
  rewrite replace_spaces_hyphenate. apply hyphenate_from_no_space.
Qed.

Lemma hyphenate_from_length (b : bool) (s : jsstring) :
  length (hyphenate_from b s) <= length s.
Proof.
  revert b. induction s as [|c r IH]; intros b; simpl; [lia|].
  destruct (is_space c).
  - destruct b; simpl; specialize (IH true); lia.
  - simpl. specialize (IH false). lia.
Qed.

Lemma hyphenate_spaceless (s : jsstring) :
  spaceless s = true -> hyphenate_from false s = s.
Proof.
  unfold spaceless. induction s as [|c r IH]; simpl; [reflexivity|].
  intros H. apply andb_true_iff in H. destruct H as [Hc Hr].
  apply negb_true_iff in Hc. rewrite Hc. f_equal. apply IH. exact Hr.
Qed.

(** The part of a derived file name that comes from the course name holds no
    white space at all and is no longer than the course name. *)
Theorem courseSlug_spaceless (params : Params) :
  spaceless (courseSlug params) = true
  /\ length (courseSlug params) <= length (courseName params).
Proof.
  split.
  - apply replace_spaces_spaceless.
  - rewrite courseSlug_hyphenate. apply hyphenate_from_length.
Qed.

(** A course name without white space is used in file names as it is, and
    replacing white space a second time changes nothing. *)
Theorem courseSlug_stable (params : Params) :
  (spaceless (courseName params) = true -> courseSlug params = courseName params)
  /\ replace_spaces [HYPHEN] (courseSlug params) = courseSlug params.
Proof.
  split.
  - intros H. rewrite courseSlug_hyphenate. apply hyphenate_spaceless. exact H.
  - rewrite replace_spaces_hyphenate. apply hyphenate_spaceless.
    apply replace_spaces_spaceless.
Qed.

Lemma courseSlug_stable_witness :
  courseSlug videoMath = lit "Math"
  /\ replace_spaces [HYPHEN] (courseSlug apiDerived) = lit "Approximations-Algorithms".
Proof.
  split.
  - apply (proj1 (courseSlug_stable videoMath)). reflexivity.
  - rewrite (proj2 (courseSlug_stable apiDerived)). reflexivity.
Defined.

(** ** [list-courses] and the resolver *)

Lemma eqb_refl (a : jsstring) : JsString.eqb a a = true.
Proof. apply eqb_eq. reflexivity. Qed.

Lemma eqb_neq (a b : jsstring) : JsString.eqb a b = false <-> a <> b.
Proof.
  split.
  - intros H Hab. apply eqb_eq in Hab. congruence.
  - intros H. destruct (JsString.eqb a b) eqn:E; [|reflexivity].
    apply eqb_eq in E. contradiction.
Qed.

(** The keys of a table are the names it has an entry for. *)
Lemma own_entry_keys (table : list (jsstring * jsstring)) (key : jsstring) :
  In key (Object_keys table) <-> exists v, own_entry table key = Some v.
Proof.
  unfold Object_keys. induction table as [|[k v] rest IH]; simpl.
  - split; [intros []|intros [v H]; discriminate].
  - destruct (JsString.eqb k key) eqn:E.
    + apply eqb_eq in E. split; eauto.
    + apply eqb_neq in E. rewrite <- IH. split; [intros [H|H]; [contradiction|exact H]|auto].
Qed.

(** The courses [list-courses] lists are the mapped ones, and the two paths
    it shows for a course are the ones [generate-notes-from-source] resolves
    for it, without a warning. *)
Theorem listed_courses_resolve (params : Params) :
  In (courseName params) (Object_keys COURSE_NOTES_PATHS) ->
  mapped (courseName params) = true
  /\ warned params = []
  /\ courseEntry (courseName params)
     = courseName params ++ lit ":" ++ [LF]
       ++ lit "  - Notes: " ++ path_text (notesPath params) ++ [LF]
       ++ lit "  - Transcripts: " ++ path_text (transcriptPath params).
Proof.
  intros Hin. apply own_entry_keys in Hin. destruct Hin as [n En].
  assert (Hmapped : mapped (courseName params) = true).
  { unfold mapped. rewrite En. reflexivity. }
  destruct (mapped_course_resolves params Hmapped) as (n' & t & En' & Et & _).
  rewrite En in En'. inversion En'. subst n'.
  split; [exact Hmapped|]. split.
  - unfold warned. rewrite notes_member_truthy, Hmapped. reflexivity.
  - unfold courseEntry, notesPath, transcriptPath, member. rewrite En, Et.
    cbn [or_path path_truthy member_text].
    rewrite (notes_entry_truthy _ En), (transcript_entry_truthy _ Et). reflexivity.
Qed.

Lemma listed_courses_resolve_witness :
  courseEntry (lit "Math")
  = lit "Math:" ++ [LF]
    ++ lit "  - Notes: /Users/lmarte/Documents/Obsidian Vault/Math" ++ [LF]
    ++ lit "  - Transcripts: /Users/lmarte/Documents/Obsidian Vault/Math/transcripts".
Proof.
  destruct (@listed_courses_resolve videoMath) as (_ & _ & H).
  - right. left. reflexivity.
  - exact H.
Defined.

(** ** The server template *)

Module TemplateFacts.
Import Template.

Lemma get_set_same {V : Type} (o : Obj V) (key : jsstring) (v : V) :
  get (set o key v) key = Some v.
Proof.
  induction o as [|[k w] rest IH]; simpl.
  - rewrite eqb_refl. reflexivity.
  - destruct (JsString.eqb k key) eqn:E; simpl; rewrite E; [reflexivity|exact IH].
Qed.

Lemma get_set_other {V : Type} (o : Obj V) (key other : jsstring) (v : V) :
  key <> other -> get (set o key v) other = get o other.
Proof.
  intros Hne. apply eqb_neq in Hne.
  induction o as [|[k w] rest IH]; simpl.
  - rewrite Hne. reflexivity.
  - destruct (JsString.eqb k key) eqn:E; simpl.
    + apply eqb_eq in E. subst k. rewrite Hne. reflexivity.
    + destruct (JsString.eqb k other); [reflexivity|exact IH].
Qed.

Lemma get_absent {V : Type} (o : Obj V) (key : jsstring) :
  ~ In key (map fst o) -> get o key = None.
Proof.
  induction o as [|[k w] rest IH]; simpl; [reflexivity|].
  intros H. destruct (JsString.eqb k key) eqn:E.
  - apply eqb_eq in E. tauto.
  - apply IH. tauto.
Qed.

(** A spread lets the properties of its source win over those of its
    target. *)
Lemma get_assign {V : Type} (target source : Obj V) (key : jsstring) :
  NoDup (map fst source) ->
  get (assign target source) key
  = match get source key with
    | Some v => Some v
    | None => get target key
    end.
Proof.
  unfold assign. revert target.
  induction source as [|[k v] rest IH]; intros target Hnodup; simpl; [reflexivity|].
  inversion Hnodup as [|? ? Hnotin Hrest]. subst.
  rewrite (IH _ Hrest).
  destruct (JsString.eqb k key) eqn:E.
  - apply eqb_eq in E. subst k.
    rewrite (get_absent _ _ Hnotin). apply get_set_same.
  - apply eqb_neq in E. rewrite (get_set_other _ _ E). reflexivity.
Qed.

(** The options handed to [fetch] carry every property of the caller's
    options unchanged, [headers] included: when the caller's options have a
    [headers] property, whatever it holds, the request goes out with it and
    without the default [User-Agent] and [Content-Type]; the defaults are sent
    only when the caller's options have no [headers] property. *)
Theorem caller_headers_replace_defaults
        (fetch : Net) (url : jsstring) (options : Obj Value) :
  NoDup (map fst options) ->
  exists sent rest,
    snd (makeApiRequest fetch url options) = EvFetch url sent :: rest
    /\ get sent (lit "headers")
       = Some match get options (lit "headers") with
              | Some v => v
              | None => VJson (JObj defaultHeaders)
              end
    /\ forall key, key <> lit "headers" -> get sent key = get options key.
Proof.
  intros Hnodup.
  exists (requestOptions options).
  assert (Hev : exists rest,
             snd (makeApiRequest fetch url options)
             = EvFetch url (requestOptions options) :: rest).
  { unfold makeApiRequest. destruct (attempt fetch url options); simpl; eauto. }
  destruct Hev as [rest Hev]. exists rest. split; [exact Hev|].
  unfold requestOptions. split.
  - rewrite get_assign by exact Hnodup.
    unfold headers_of.
    destruct (get options (lit "headers")); [reflexivity|].
    cbn [get spread_of assign fold_left]. rewrite eqb_refl. reflexivity.
  - intros key Hkey. rewrite get_assign by exact Hnodup.
    destruct (get options key); [reflexivity|].
    cbn [get]. assert (E : JsString.eqb (lit "headers") key = false).
    { apply eqb_neq. congruence. }
    rewrite E. reflexivity.
Qed.

Lemma withAuthorization_nodup : NoDup (map fst withAuthorization).
Proof.
  repeat constructor; simpl; intros H;
    repeat (destruct H as [H | H]; [vm_compute in H; discriminate|]); exact H.
Defined.

Lemma caller_headers_replace_defaults_witness :
  exists sent rest,
    snd (makeApiRequest answersNull (lit "https://api.example.com/x") withAuthorization)
    = EvFetch (lit "https://api.example.com/x") sent :: rest
    /\ get sent (lit "headers")
       = Some (VJson (JObj [(lit "Authorization", JStr (lit "Bearer t"))])).
Proof.
  destruct (@caller_headers_replace_defaults
              answersNull (lit "https://api.example.com/x") withAuthorization
              withAuthorization_nodup)
    as (sent & rest & Hev & Hheaders & _).
  exists sent, rest. split; [exact Hev|exact Hheaders].
Defined.

(** [null] does not tell a failure from a body that is [null]; the log
    does. *)
Example null_body_is_not_a_failure :
  makeApiRequest answersNull (lit "https://api.example.com/x") []
  = (JNull, [EvFetch (lit "https://api.example.com/x")
                     [(lit "headers", VJson (JObj defaultHeaders))]])
  /\ makeApiRequest answers404 (lit "https://api.example.com/x") []
     = (JNull, [EvFetch (lit "https://api.example.com/x")
                        [(lit "headers", VJson (JObj defaultHeaders))];
                EvConsoleError (lit "Error making API request:")
                               (lit "HTTP error! status: 404")]).
Proof. split; reflexivity. Qed.

End TemplateFacts.

(** * The specification's invariants, on the code *)

(** ** The Source Acquirer before the Artifact Writer *)

Lemma sourceAcquirer_returned (rt : Runtime) (params : Params) (v : Value) :
  acquired rt params = Returned v -> v <> VUndefined ->
  sourceAcquirer rt params = Returned v.
Proof.
  unfold sourceAcquirer. intros -> Hv. destruct v; [contradiction|reflexivity].
Qed.

Lemma sourceAcquirer_thrown (rt : Runtime) (params : Params) (m : jsstring) :
  sourceAcquirer rt params = Thrown m ->
  acquired rt params = Thrown m
  \/ (acquired rt params = Returned VUndefined /\ sourceType params = Api).
Proof.
  unfold sourceAcquirer.
  destruct (acquired rt params) as [[|j]|m'] eqn:Hacq; try discriminate.
  - intros _. right. split; [reflexivity|].
    unfold acquired in Hacq. destruct (sourceType params); [| |reflexivity].
    + destruct (target_file params); [|discriminate].
      destruct (readFile rt a); discriminate.
    + destruct (execSync rt (ytCommand params)); discriminate.
  - intros H. left. exact H.
Qed.

Lemma is_text_defined (v : Value) : is_text v = true -> v <> VUndefined.
Proof. intros H ->. discriminate. Qed.

(** A request that succeeds did not go on with [undefined]. *)
Lemma succeeded_defined (rt : Runtime) (params : Params) (v : Value) :
  succeeded (response rt params) = true ->
  acquired rt params = Returned v ->
  v <> VUndefined.
Proof.
  rewrite response_by_acquisition. intros Hok Hacq Hv. subst v. rewrite Hacq in Hok.
  destruct (sourceType params); cbn [succeeded] in Hok.
  - destruct (concluded_undefined params) as [cause Hc]. rewrite Hc in Hok. discriminate.
  - destruct (saved_undefined rt params (ytTranscriptFilename params)) as [cause Hc].
    rewrite Hc in Hok. discriminate.
  - destruct (saved_undefined rt params (apiTranscriptFilename params)) as [cause Hc].
    rewrite Hc in Hok. discriminate.
Qed.

(** C2, as the code has it.  A request that succeeds has acquired its
    transcript in the specification's sense, every write carries the acquired
    value, and for a local file or a video that value is a string, which may
    be empty; for a local file or a video the same holds as soon as the
    Artifact Writer is invoked.  A request whose acquisition fails ends with an
    error envelope; it has written nothing when the source is a local file or
    a video, and when the fetch helper exits non-zero or prints what does not
    parse. *)
Theorem transcript_acquired_before_use (rt : Runtime) (params : Params) :
  (succeeded (response rt params) = true ->
   exists v, sourceAcquirer rt params = Returned v
             /\ (forall path data, In (path, data) (writes (trace rt params)) -> data = v)
             /\ (sourceType params <> Api -> is_text v = true))
  /\ (sourceType params <> Api ->
      writes (trace rt params) <> [] ->
      exists v, sourceAcquirer rt params = Returned v
                /\ is_text v = true
                /\ (forall path data, In (path, data) (writes (trace rt params)) -> data = v))
  /\ (forall m, sourceAcquirer rt params = Thrown m ->
        failed (response rt params) = true)
  /\ (forall m, sourceAcquirer rt params = Thrown m ->
        sourceType params <> Api ->
        writes (trace rt params) = [])
  /\ (forall m, sourceType params = Api ->
        execSync rt (curlCommand rt params) = Thrown m
        \/ (exists stdout, execSync rt (curlCommand rt params) = Returned stdout
                           /\ JSON_parse rt stdout = Thrown m) ->
        writes (trace rt params) = []).
Proof.
  destruct (acquisition_precedes_writer rt params) as [Huse Hfail].
  split; [|split; [|split; [|split]]].
  - intros Hok. destruct (Huse (or_intror Hok)) as (v & Hacq & Hcarry & Htext).
    exists v. split; [|split; assumption].
    apply sourceAcquirer_returned; [exact Hacq|].
    apply (succeeded_defined _ _ Hok Hacq).
  - intros Hsrc Hwrites. destruct (Huse (or_introl Hwrites)) as (v & Hacq & Hcarry & Htext).
    exists v. split; [|split; [exact (Htext Hsrc)|exact Hcarry]].
    apply sourceAcquirer_returned; [exact Hacq|].
    apply is_text_defined. exact (Htext Hsrc).
  - intros m Hm. destruct (sourceAcquirer_thrown _ _ Hm) as [Hacq | [Hacq Hsrc]].
    + apply (Hfail m Hacq).
    + rewrite response_by_acquisition, Hacq, Hsrc.
      destruct (saved_undefined rt params (apiTranscriptFilename params)) as [cause Hc].
      cbn [failed]. rewrite Hc. reflexivity.
  - intros m Hm Hsrc. destruct (sourceAcquirer_thrown _ _ Hm) as [Hacq | [_ Hapi]].
    + apply (Hfail m Hacq).
    + contradiction.
  - intros m Hsrc Hhelper. apply (Hfail m).
    unfold acquired. rewrite Hsrc.
    destruct Hhelper as [Hexec | (stdout & Hexec & Hparse)]; rewrite Hexec;
      [reflexivity|rewrite Hparse; reflexivity].
Qed.

Lemma transcript_acquired_before_use_witness :
  exists v, sourceAcquirer diskEmpty localHello = Returned v
            /\ (forall path data,
                  In (path, data) (writes (trace diskEmpty localHello)) -> data = v)
            /\ (sourceType localHello <> Api -> is_text v = true).
Proof.
  apply (proj1 (transcript_acquired_before_use diskEmpty localHello)).
  reflexivity.
Defined.

(** C2 as stated fails twice.  The file is there and empty: the request
    succeeds and the transcript is the empty string.  The fetch helper prints
    an object without [data] and the copy is asked for: acquisition has
    failed, yet [fs.writeFile] is called, with [undefined]. *)
Lemma transcript_invariant_fails :
  ~ transcript_invariant diskEmpty localHello
  /\ ~ transcript_invariant fetchPrintsEmptyObject apiNamed.
Proof.
  split.
  - intros [H _]. destruct H as (v & Hv & Hnonempty).
    + right. reflexivity.
    + vm_compute in Hv. inversion Hv. subst v. discriminate.
  - intros [_ H]. destruct (H MISSING_DATA) as [_ Hwrites]; [reflexivity|].
    vm_compute in Hwrites. discriminate.
Qed.

(** The second failure, on its input: the write that precedes the failure. *)
Example missing_data_reaches_the_writer :
  sourceAcquirer fetchPrintsEmptyObject apiNamed = Thrown MISSING_DATA
  /\ writes (trace fetchPrintsEmptyObject apiNamed)
     = [(mathTranscripts ++ lit "/t.txt", VUndefined)]
  /\ failed (response fetchPrintsEmptyObject apiNamed) = true.
Proof. repeat split. Qed.

(** ** Local files under a course named like a built-in *)

(** C3: the claim says that a local-file request whose target file does not
    exist is answered with the NotFound message.  For the course name
    [constructor] and the relative location [lec1.txt] no file exists
    anywhere, yet the answer is the TypeError of [path.join]: the transcript
    path is the function [Object] (the slip of C8), the join of lines 102-104
    throws outside the inner [try], and the file is not even looked for. *)
Theorem constructor_course_missing_file :
  sourceType relativeConstructor = LocalFile
  /\ mapped (lit "constructor") = false
  /\ unreadable diskBare (DEFAULT_TRANSCRIPT_PATH ++ lit "/lec1.txt") = true
  /\ response diskBare relativeConstructor
     = Returned
         {| isError := true;
            content :=
              [ lit "Error generating notes: The " ++ [DQUOTE] ++ lit "path" ++ [DQUOTE]
                ++ lit " argument must be of type string. Received function Object" ] |}
  /\ trace diskBare relativeConstructor = [].
Proof. repeat split. Qed.

(** The NotFound message, for contrast: the same file, a course without the
    slip. *)
Example unknown_course_missing_file :
  response diskBare (request (lit "Physics") (lit "1") LocalFile (lit "lec1.txt") true None None)
  = Returned
      {| isError := true;
         content :=
           [ lit "Error: Could not read file at /Users/lmarte/Documents/Transcripts/lec1.txt. Make sure the file exists and is accessible." ] |}.
Proof. reflexivity. Qed.

(** ** The copy on the disk *)




